(** * ECleaningBT: the Bluetooth connection screen and the Info.plist plugin

    A shallow embedding of the two source files of the repository:

    - [plugins/withBluetoothClassic.js], the Expo config plugin that writes
      three entries of the iOS Info.plist (module [Plugin]);
    - the [Bluetooth] screen component (React Native, TypeScript) with its
      five asynchronous handlers [checkBluetooth], [requestPermissions],
      [discoverDevices], [connectToDevice] and [disconnectDevice]
      (module [Screen]).

    JavaScript objects used as dictionaries are finite maps with string
    keys; an awaited promise is a completion (a value or a thrown error);
    the React state cells and the observable calls (native calls, alerts,
    console output) are threaded through a small state monad. *)

From Stdlib Require Import ZArith String Ascii List Bool Lia.
From stdpp Require Import base option gmap strings list fin_maps.

Local Open Scope string_scope.

(** ** The config plugin *)

Module Plugin.

(** Values of an Info.plist dictionary as far as the plugin and the
    packaging tool exchange them. *)
Inductive PlistValue : Type :=
| PString (s : string)
| PArray (items : list string)
| PBoolean (b : bool).

#[global] Instance PlistValue_eq_dec : EqDecision PlistValue.
Proof. solve_decision. Defined.

(** The object a mod action receives: [modResults] is the parsed
    Info.plist, [modRequest] stands for everything else it carries. *)
Record ModConfig : Type := mkMod {
  modResults : gmap string PlistValue;
  modRequest : gmap string string
}.

Definition usageDescription : string :=
  "Allow Bluetooth access to connect to E-Cleaning devices".

(** The arrow function of lines 4-11: three property assignments on
    [mod.modResults], in source order, then [return mod]. *)
Definition infoPlistAction (mod_ : ModConfig) : ModConfig :=
  let r1 := <["NSBluetoothAlwaysUsageDescription" := PString usageDescription]>
              (modResults mod_) in
  let r2 := <["NSBluetoothPeripheralUsageDescription" := PString usageDescription]> r1 in
  let r3 := <["UIBackgroundModes" := PArray ["bluetooth-central"]]> r2 in
  {| modResults := r3; modRequest := modRequest mod_ |}.

(** [withInfoPlist] belongs to expo/config-plugins: the packaging tool runs
    the action on the object that holds the manifest and keeps what the
    action returns. *)
Definition withInfoPlist (config : ModConfig) (action : ModConfig -> ModConfig)
  : ModConfig := action config.

Definition withBluetoothClassic (config : ModConfig) : ModConfig :=
  withInfoPlist config infoPlistAction.

(** The three keys the plugin writes. *)
Definition writtenKeys : list string :=
  [ "NSBluetoothAlwaysUsageDescription";
    "NSBluetoothPeripheralUsageDescription";
    "UIBackgroundModes" ].

(** Removing the written keys leaves the part of a manifest the plugin has
    no business with. *)
Definition untouchedPart (m : gmap string PlistValue) : gmap string PlistValue :=
  foldr delete m writtenKeys.

End Plugin.

(** ** JavaScript values and builtins used by the screen *)

Module Js.

(** A thrown [Error]: its class name and its [message]. *)
Record JsError : Type := mkError {
  errName : string;
  message : string
}.

(** What evaluating an unbound identifier throws.  The wording of the
    message depends on the engine; the handlers only concatenate it. *)
Definition ReferenceError (ident : string) : JsError :=
  {| errName := "ReferenceError"; message := ident +:+ " is not defined" |}.

(** How an awaited promise settles: fulfilled with a value, or rejected. *)
Inductive Completion (A : Type) : Type :=
| Normal (a : A)
| Throw (e : JsError).
Arguments Normal {A} a.
Arguments Throw {A} e.

(** [Array.prototype.splice(start, deleteCount)] on an array, for
    non-negative arguments: the elements removed are dropped in place. *)
Definition splice {A} (start deleteCount : nat) (l : list A) : list A :=
  take start l ++ drop (start + deleteCount) l.

(** [Array.prototype.every]. *)
Definition every {A} (p : A -> bool) (l : list A) : bool := forallb p l.

(** [Object.values] of an object used as a dictionary. *)
Definition Object_values {V} (o : gmap string V) : list V := (map_to_list o).*2.

(** Truthiness of a string-or-null: null and the empty string are falsy. *)
Definition truthy (v : option string) : bool :=
  match v with
  | Some s => negb (String.eqb s "")
  | None => false
  end.

(** *** [parseInt(s, 10)]

    Leading white space is skipped, one sign is accepted, then the longest
    run of decimal digits is read; no digit at all gives NaN ([None]). *)
Definition isWhiteSpace (c : ascii) : bool :=
  let n := nat_of_ascii c in
  ((9 <=? n) && (n <=? 13) || (n =? 32))%nat.

Fixpoint trimStart (s : string) : string :=
  match s with
  | String c r => if isWhiteSpace c then trimStart r else s
  | EmptyString => s
  end.

Definition digitValue (c : ascii) : option Z :=
  let n := nat_of_ascii c in
  if ((48 <=? n) && (n <=? 57))%nat then Some (Z.of_nat (n - 48)%nat) else None.

(** [acc] is [None] until a first digit has been read. *)
Fixpoint parseDigits (acc : option Z) (s : string) : option Z :=
  match s with
  | String c r =>
      match digitValue c with
      | Some d => parseDigits (Some (10 * default 0 acc + d)%Z) r
      | None => acc
      end
  | EmptyString => acc
  end.

Definition parseInt (s : string) : option Z :=
  match trimStart s with
  | String "-"%char r => Z.opp <$> parseDigits None r
  | String "+"%char r => parseDigits None r
  | r => parseDigits None r
  end.

(** [x < k] for a number-or-NaN [x]: every comparison with NaN is false. *)
Definition lessThan (x : option Z) (k : Z) : bool :=
  match x with
  | Some n => (n <? k)%Z
  | None => false
  end.

(** A string made of decimal digits only. *)
Fixpoint allDigits (s : string) : bool :=
  match s with
  | String c r =>
      match digitValue c with
      | Some _ => allDigits r
      | None => false
      end
  | EmptyString => true
  end.

End Js.

(** ** The Bluetooth screen *)

Module Screen.
Import Js.

(** A [BluetoothDevice] of react-native-bluetooth-classic, as far as the
    screen looks at it.  Its [connect()] and [disconnect()] methods are
    part of the environment below. *)
Record BluetoothDevice : Type := mkDevice {
  name : option string;
  address : string
}.

#[global] Instance BluetoothDevice_eq_dec : EqDecision BluetoothDevice.
Proof. solve_decision. Defined.

(** The five [useState] cells of the component (lines 18-22). *)
Record ScreenState : Type := mkScreen {
  devices : list BluetoothDevice;
  connectedDevice : option BluetoothDevice;
  loading : bool;
  scanning : bool;
  isBtEnabled : bool
}.

(** The initial values given to [useState]. *)
Definition initialState : ScreenState :=
  {| devices := []; connectedDevice := None;
     loading := false; scanning := false; isBtEnabled := false |}.

(** What the status card prints (line 147). *)
Definition statusTitle (s : ScreenState) : string :=
  match connectedDevice s with
  | Some _ => "Connected"
  | None => "Not Connected"
  end.

(** Everything a handler does that is visible outside the state cells. *)
Inductive Event : Type :=
| IsBluetoothEnabledCall
| StartDiscoveryCall
| RequestMultipleCall (permissions : list string)
| AskAsyncCall (capability : string)
| ConnectCall (device : BluetoothDevice)
| DisconnectCall (device : BluetoothDevice)
| ConsoleError (label : string) (error : JsError)
| AlertShown (title text : string).

#[global] Instance JsError_eq_dec : EqDecision JsError.
Proof. solve_decision. Defined.

#[global] Instance Event_eq_dec : EqDecision Event.
Proof. solve_decision. Defined.

Definition isPermissionRequest (ev : Event) : bool :=
  match ev with
  | RequestMultipleCall _ | AskAsyncCall _ => true
  | _ => false
  end.

(** Constants of react-native's [PermissionsAndroid]. *)
Definition ACCESS_COARSE_LOCATION : string := "android.permission.ACCESS_COARSE_LOCATION".
Definition ACCESS_FINE_LOCATION : string := "android.permission.ACCESS_FINE_LOCATION".
Definition BLUETOOTH_SCAN : string := "android.permission.BLUETOOTH_SCAN".
Definition BLUETOOTH_CONNECT : string := "android.permission.BLUETOOTH_CONNECT".
Definition RESULTS_GRANTED : string := "granted".
Definition RESULTS_DENIED : string := "denied".

(** The object [askAsync] resolves to; the handler destructures [status]. *)
Record PermissionResponse : Type := mkResponse { status : string }.

(** A module object bound to the name [Permissions]. *)
Record PermissionsModule : Type := mkPermissions {
  BLUETOOTH : string;
  askAsync : string -> Completion PermissionResponse
}.

(** The collaborators of the screen: the platform constants, the native
    Bluetooth library, the permission services.  A handler calls each of
    them at most once, so one settled answer per call describes them.

    The component file imports [PermissionsAndroid], [Platform], [Device]
    and [RNBluetoothClassic] (lines 1-15) but neither imports nor declares
    [Permissions]: that identifier is looked up in the global scope when
    line 56 is evaluated.  [Permissions = None] is a global scope without
    it. *)
Record Env : Type := mkEnv {
  Platform_OS : string;
  Device_osVersion : option string;
  isBluetoothEnabled : Completion bool;
  startDiscovery : Completion (list BluetoothDevice);
  requestMultiple : list string -> Completion (gmap string string);
  Permissions : option PermissionsModule;
  connect : BluetoothDevice -> Completion bool;
  disconnect : BluetoothDevice -> Completion bool
}.

(** *** The handler monad: state cells, a log of events, completions *)

Record World : Type := mkWorld {
  screen : ScreenState;
  trace : list Event
}.

Definition Proc (A : Type) : Type := World -> Completion A * World.

#[global] Instance Proc_ret : MRet Proc := fun A a w => (Normal a, w).

#[global] Instance Proc_bind : MBind Proc := fun A B f m w =>
  match m w with
  | (Normal a, w1) => f a w1
  | (Throw e, w1) => (Throw e, w1)
  end.

Definition throw {A} (e : JsError) : Proc A := fun w => (Throw e, w).

Definition emit (ev : Event) : Proc unit := fun w =>
  (Normal tt, {| screen := screen w; trace := trace w ++ [ev] |}).

Definition modify (f : ScreenState -> ScreenState) : Proc unit := fun w =>
  (Normal tt, {| screen := f (screen w); trace := trace w |}).

(** Reading a state cell from the handler's closure. *)
Definition readState : Proc ScreenState := fun w => (Normal (screen w), w).

(** [await] of a call into a collaborator: the call is logged, then the
    promise settles. *)
Definition native {A} (ev : Event) (answer : Completion A) : Proc A :=
  emit ev ;; (fun w => (answer, w)).

(** [try { body } catch (error) { handler } finally { cleanup }]: the
    cleanup runs after the body or the handler, however they complete. *)
Definition tryCatchFinally {A} (body : Proc A) (handler : JsError -> Proc A)
    (cleanup : Proc unit) : Proc A := fun w =>
  let '(c, w1) :=
    match body w with
    | (Normal a, w1) => (Normal a, w1)
    | (Throw e, w1) => handler e w1
    end in
  match cleanup w1 with
  | (Normal _, w2) => (c, w2)
  | (Throw e, w2) => (Throw e, w2)
  end.

(** [try { body } catch (error) { handler }]. *)
Definition tryCatch {A} (body : Proc A) (handler : JsError -> Proc A) : Proc A :=
  tryCatchFinally body handler (mret tt).

(** The state setters returned by [useState]. *)
Definition setDevices (v : list BluetoothDevice) : Proc unit :=
  modify (fun s => {| devices := v; connectedDevice := connectedDevice s;
                      loading := loading s; scanning := scanning s;
                      isBtEnabled := isBtEnabled s |}).
Definition setConnectedDevice (v : option BluetoothDevice) : Proc unit :=
  modify (fun s => {| devices := devices s; connectedDevice := v;
                      loading := loading s; scanning := scanning s;
                      isBtEnabled := isBtEnabled s |}).
Definition setLoading (v : bool) : Proc unit :=
  modify (fun s => {| devices := devices s; connectedDevice := connectedDevice s;
                      loading := v; scanning := scanning s;
                      isBtEnabled := isBtEnabled s |}).
Definition setScanning (v : bool) : Proc unit :=
  modify (fun s => {| devices := devices s; connectedDevice := connectedDevice s;
                      loading := loading s; scanning := v;
                      isBtEnabled := isBtEnabled s |}).
Definition setIsBtEnabled (v : bool) : Proc unit :=
  modify (fun s => {| devices := devices s; connectedDevice := connectedDevice s;
                      loading := loading s; scanning := scanning s;
                      isBtEnabled := v |}).

Definition console_error (label : string) (error : JsError) : Proc unit :=
  emit (ConsoleError label error).
Definition Alert_alert (title text : string) : Proc unit :=
  emit (AlertShown title text).

(** *** The handlers *)

Section Handlers.
Variable env : Env.

(** Lines 25-34. *)
Definition checkBluetooth : Proc bool :=
  tryCatch
    (enabled ← native IsBluetoothEnabledCall (isBluetoothEnabled env);
     setIsBtEnabled enabled ;;
     mret enabled)
    (fun error =>
       console_error "Bluetooth check failed" error ;;
       mret false).

(** Line 46: [Device.osVersion && parseInt(Device.osVersion, 10) < 12]. *)
Definition olderAndroid (osVersion : option string) : bool :=
  match osVersion with
  | Some v => truthy osVersion && lessThan (parseInt v) 12
  | None => false
  end.

(** Lines 40-48: the array handed to [requestMultiple]. *)
Definition androidPermissions (osVersion : option string) : list string :=
  let permissions := [ACCESS_FINE_LOCATION; BLUETOOTH_SCAN; BLUETOOTH_CONNECT] in
  if olderAndroid osVersion then splice 1 2 permissions else permissions.

(** Lines 37-59. *)
Definition requestPermissions : Proc bool :=
  if String.eqb (Platform_OS env) "android" then
    let permissions := androidPermissions (Device_osVersion env) in
    granted ← native (RequestMultipleCall permissions)
                     (requestMultiple env permissions);
    mret (every (fun st => String.eqb st RESULTS_GRANTED) (Object_values granted))
  else
    match Permissions env with
    | Some P =>
        response ← native (AskAsyncCall (BLUETOOTH P)) (askAsync P (BLUETOOTH P));
        mret (String.eqb (status response) "granted")
    | None => throw (ReferenceError "Permissions")
    end.

(** Lines 62-87.  The two early [return]s leave the [try] block, so the
    rest of the block sits in the other branch. *)
Definition discoverDevices : Proc unit :=
  tryCatchFinally
    (setScanning true ;;
     setDevices [] ;;
     hasPermissions ← requestPermissions;
     if negb hasPermissions then
       Alert_alert "Permissions required"
         "Bluetooth and location permissions are needed to find devices"
     else
       enabled ← checkBluetooth;
       if negb enabled then
         Alert_alert "Bluetooth disabled"
           "Please enable Bluetooth to discover devices"
       else
         discovered ← native StartDiscoveryCall (startDiscovery env);
         setDevices discovered)
    (fun error =>
       console_error "Discovery error" error ;;
       Alert_alert "Error" ("Failed to discover devices: " +:+ message error))
    (setScanning false).

(** Lines 90-106. *)
Definition connectToDevice (device : BluetoothDevice) : Proc unit :=
  tryCatchFinally
    (setLoading true ;;
     isConnected ← native (ConnectCall device) (connect env device);
     if isConnected : bool then
       setConnectedDevice (Some device)
     else
       Alert_alert "Connection failed" "Could not connect to the device")
    (fun error =>
       console_error "Connection error" error ;;
       Alert_alert "Error" ("Connection failed: " +:+ message error))
    (setLoading false).

(** Lines 109-122.  The value [disconnect()] resolves to is dropped. *)
Definition disconnectDevice : Proc unit :=
  s ← readState;
  match connectedDevice s with
  | Some device =>
      tryCatchFinally
        (setLoading true ;;
         native (DisconnectCall device) (disconnect env device) ;;
         setConnectedDevice None)
        (fun error =>
           console_error "Disconnection error" error ;;
           Alert_alert "Error" ("Disconnection failed: " +:+ message error))
        (setLoading false)
  | None => mret tt
  end.

(** One call of a handler from state [s], with a fresh log. *)
Definition run {A} (p : Proc A) (s : ScreenState) : Completion A * World :=
  p {| screen := s; trace := [] |}.

End Handlers.

(** The result, the final state and the log of a finished call. *)
Definition outcome {A} (r : Completion A * World) : Completion A := r.1.
Definition after {A} (r : Completion A * World) : ScreenState := screen r.2.
Definition logged {A} (r : Completion A * World) : list Event := trace r.2.

(** Events of one kind in a log. *)
Definition isAlert (ev : Event) : bool :=
  match ev with AlertShown _ _ => true | _ => false end.
Definition isNativeCall (ev : Event) : bool :=
  match ev with
  | IsBluetoothEnabledCall | StartDiscoveryCall
  | ConnectCall _ | DisconnectCall _ => true
  | _ => false
  end.
Definition alerts (log : list Event) : list Event := List.filter isAlert log.

(** A procedure that only appends to the log it is given and never reads
    it: run on any world, it does what it does on a fresh log. *)
Definition appendsOnly {A} (p : Proc A) : Prop :=
  forall w : World,
    p w = (outcome (run p (screen w)),
           {| screen := after (run p (screen w));
              trace := trace w ++ logged (run p (screen w)) |}).

End Screen.

(** ** What the component renders, and the taps it accepts *)

Module Ui.
Import Js Screen.

(** [v || fallback] for a string-or-null [v]. *)
Definition orElse (v : option string) (fallback : string) : string :=
  match v with
  | Some s => if truthy v then s else fallback
  | None => fallback
  end.

(** A [TouchableOpacity]: its [disabled] and [onPress] props. *)
Record Touchable : Type := mkTouchable {
  disabled : bool;
  onPress : Proc unit
}.

(** One row of the [FlatList] (lines 217-238). *)
Record DeviceRow : Type := mkRow {
  rowKey : string;
  deviceName : string;
  deviceAddress : string;
  rowButton : Touchable
}.

(** The body of the "Available Devices" section (lines 195-240). *)
Inductive DeviceSection : Type :=
| NoDevices (icon text hint : string)
| DeviceList (rows : list DeviceRow).

(** The lower half of the status card (lines 151-175). *)
Inductive StatusBody : Type :=
| ConnectionDetails (connectedDeviceName : option string)
                    (connectedDeviceAddress : string)
                    (disconnectButton : Touchable)
                    (disconnectSpinner : bool)
| ConnectionHint (text : string).

Record ScreenView : Type := mkView {
  statusIcon : string;
  statusColor : string;
  statusText : string;
  statusBody : StatusBody;
  refreshButton : Touchable;
  refreshSpinner : bool;
  deviceSection : DeviceSection
}.

Section Render.
Variable env : Env.

(** Lines 215-234: the key, the two texts and the button of a row. *)
Definition renderItem (s : ScreenState) (item : BluetoothDevice) : DeviceRow :=
  {| rowKey := address item;
     deviceName := orElse (name item) "Unknown Device";
     deviceAddress := address item;
     rowButton :=
       {| disabled := bool_decide (is_Some (connectedDevice s)) || loading s;
          onPress := connectToDevice env item |} |}.

(** Lines 129-267, without the static header, help card and styles. *)
Definition render (s : ScreenState) : ScreenView :=
  {| statusIcon :=
       match connectedDevice s with
       | Some _ => "bluetooth-connected"
       | None => "bluetooth-off"
       end;
     statusColor :=
       match connectedDevice s with
       | Some _ => "#2ecc71"
       | None => "#e74c3c"
       end;
     statusText := statusTitle s;
     statusBody :=
       match connectedDevice s with
       | Some d =>
           ConnectionDetails (name d) (address d)
             {| disabled := loading s; onPress := disconnectDevice env |}
             (loading s)
       | None => ConnectionHint "Select a device below to establish connection"
       end;
     refreshButton := {| disabled := scanning s; onPress := discoverDevices env |};
     refreshSpinner := scanning s;
     deviceSection :=
       if (length (devices s) =? 0)%nat then
         NoDevices
           (if isBtEnabled s then "bluetooth-search" else "bluetooth-off")
           (if scanning s then "Scanning..." else "No devices found")
           (if negb (isBtEnabled s)
            then "Bluetooth is disabled. Please enable Bluetooth to discover devices"
            else "Make sure your device is powered on and in pairing mode")
       else DeviceList (renderItem s <$> devices s) |}.

End Render.

(** A press on a touchable: a disabled one swallows it. *)
Definition press (b : Touchable) : Proc unit :=
  if disabled b then mret tt else onPress b.

(** The controls a user can reach. *)
Inductive Tap : Type :=
| TapRefresh
| TapDevice (index : nat)
| TapDisconnect.

(** A tap on a rendered screen; a control that is not on the screen
    cannot be pressed. *)
Definition tap (v : ScreenView) (t : Tap) : Proc unit :=
  match t with
  | TapRefresh => press (refreshButton v)
  | TapDevice index =>
      match deviceSection v with
      | DeviceList rows =>
          match rows !! index with
          | Some row => press (rowButton row)
          | None => mret tt
          end
      | NoDevices _ _ _ => mret tt
      end
  | TapDisconnect =>
      match statusBody v with
      | ConnectionDetails _ _ button _ => press button
      | ConnectionHint _ => mret tt
      end
  end.

(** A tap that arrives while no handler is in flight: the screen shows the
    current state, and the handler it starts runs to its end. *)
Definition act (env : Env) (t : Tap) : Proc unit := fun w =>
  tap (render env (screen w)) t w.

(** The effect of lines 125-127: [checkBluetooth()] once, result dropped. *)
Definition mount (env : Env) : Proc unit :=
  checkBluetooth env ;; mret tt.

(** A sequence of such taps; the collaborators may answer differently at
    each of them. *)
Fixpoint session (steps : list (Env * Tap)) : Proc unit :=
  match steps with
  | [] => mret tt
  | (env, t) :: rest => act env t ;; session rest
  end.

End Ui.

(** ** Concrete inputs used by the examples below *)

Module Examples.
Import Js Screen Plugin.

Definition deviceA : BluetoothDevice :=
  {| name := Some "E-Cleaning"; address := "00:11:22:33:44:55" |}.

(** A permission service that reports the same status for every
    capability it is asked for. *)
Definition answerAll (st : string) (permissions : list string)
  : Completion (gmap string string) :=
  Normal (list_to_map ((fun p => (p, st)) <$> permissions)).

Definition nativeFailure : JsError :=
  {| errName := "Error"; message := "Bluetooth adapter not available" |}.

(** An Android phone; the native calls all succeed. *)
Definition androidPhone (osVersion : string) (st : string) : Env :=
  {| Platform_OS := "android";
     Device_osVersion := Some osVersion;
     isBluetoothEnabled := Normal true;
     startDiscovery := Normal [deviceA];
     requestMultiple := answerAll st;
     Permissions := None;
     connect := fun _ => Normal true;
     disconnect := fun _ => Normal true |}.

(** The same phone once the adapter query starts failing. *)
Definition brokenAdapter : Env :=
  {| Platform_OS := "android";
     Device_osVersion := Some "13";
     isBluetoothEnabled := Throw nativeFailure;
     startDiscovery := Normal [deviceA];
     requestMultiple := answerAll RESULTS_GRANTED;
     Permissions := None;
     connect := fun _ => Normal true;
     disconnect := fun _ => Normal true |}.

(** A phone whose devices answer [false] to [connect()] and [disconnect()]. *)
Definition refusingDevice : Env :=
  {| Platform_OS := "android";
     Device_osVersion := Some "13";
     isBluetoothEnabled := Normal true;
     startDiscovery := Normal [deviceA];
     requestMultiple := answerAll RESULTS_GRANTED;
     Permissions := None;
     connect := fun _ => Normal false;
     disconnect := fun _ => Normal false |}.

(** An iPhone running the bundle: the global scope of React Native has no
    [Permissions]. *)
Definition iPhone : Env :=
  {| Platform_OS := "ios";
     Device_osVersion := Some "17.4";
     isBluetoothEnabled := Normal true;
     startDiscovery := Normal [deviceA];
     requestMultiple := answerAll RESULTS_GRANTED;
     Permissions := None;
     connect := fun _ => Normal true;
     disconnect := fun _ => Normal true |}.

(** The screen while [deviceA] is connected. *)
Definition connectedToA : ScreenState :=
  {| devices := [deviceA]; connectedDevice := Some deviceA;
     loading := false; scanning := false; isBtEnabled := true |}.

(** A manifest that already declares a background mode. *)
Definition audioManifest : ModConfig :=
  {| modResults := {[ "UIBackgroundModes" := PArray ["audio"] ]};
     modRequest := ∅ |}.

(** A phone on which [Permissions] is bound to a module that grants. *)
Definition grantingModule : PermissionsModule :=
  {| BLUETOOTH := "bluetooth";
     askAsync := fun _ => Normal {| status := "granted" |} |}.

Definition patchedPhone : Env :=
  {| Platform_OS := "ios";
     Device_osVersion := Some "17.4";
     isBluetoothEnabled := Normal true;
     startDiscovery := Normal [deviceA];
     requestMultiple := answerAll RESULTS_GRANTED;
     Permissions := Some grantingModule;
     connect := fun _ => Normal true;
     disconnect := fun _ => Normal true |}.

(** A phone whose native calls all throw. *)
Definition failingPhone : Env :=
  {| Platform_OS := "android";
     Device_osVersion := None;
     isBluetoothEnabled := Throw nativeFailure;
     startDiscovery := Throw nativeFailure;
     requestMultiple := fun _ => Throw nativeFailure;
     Permissions := None;
     connect := fun _ => Throw nativeFailure;
     disconnect := fun _ => Throw nativeFailure |}.

(** A phone with the adapter switched off. *)
Definition adapterOff : Env :=
  {| Platform_OS := "android";
     Device_osVersion := Some "13";
     isBluetoothEnabled := Normal false;
     startDiscovery := Normal [deviceA];
     requestMultiple := answerAll RESULTS_GRANTED;
     Permissions := None;
     connect := fun _ => Normal true;
     disconnect := fun _ => Normal true |}.

(** A phone on which discovery itself fails. *)
Definition discoveryFails : Env :=
  {| Platform_OS := "android";
     Device_osVersion := Some "13";
     isBluetoothEnabled := Normal true;
     startDiscovery := Throw nativeFailure;
     requestMultiple := answerAll RESULTS_GRANTED;
     Permissions := None;
     connect := fun _ => Normal true;
     disconnect := fun _ => Normal true |}.

Definition deviceB : BluetoothDevice :=
  {| name := None; address := "66:77:88:99:AA:BB" |}.

(** The screen after a scan that found [deviceB], nothing connected. *)
Definition foundB : ScreenState :=
  {| devices := [deviceB]; connectedDevice := None;
     loading := false; scanning := false; isBtEnabled := true |}.

(** The report [answerAll RESULTS_GRANTED] gives on Android 11. *)
Definition answerGranted11 : gmap string string :=
  {[ ACCESS_FINE_LOCATION := RESULTS_GRANTED ]}.

(** A permission service that answers with an empty report. *)
Definition silentService : Env :=
  {| Platform_OS := "android";
     Device_osVersion := Some "13";
     isBluetoothEnabled := Normal true;
     startDiscovery := Normal [deviceA];
     requestMultiple := fun _ => Normal ∅;
     Permissions := None;
     connect := fun _ => Normal true;
     disconnect := fun _ => Normal true |}.

(** A phone whose devices connect, and answer [false] to [disconnect()]. *)
Definition refusingDeviceOnExit : Env :=
  {| Platform_OS := "android";
     Device_osVersion := Some "13";
     isBluetoothEnabled := Normal true;
     startDiscovery := Normal [deviceB];
     requestMultiple := answerAll RESULTS_GRANTED;
     Permissions := None;
     connect := fun _ => Normal true;
     disconnect := fun _ => Normal false |}.

(** A manifest with no entry at all. *)
Definition emptyManifest : ModConfig :=
  {| modResults := ∅; modRequest := ∅ |}.

End Examples.

Import Js Screen Plugin Examples.
Import Ui.

(** Unfolding the monad down to functions on worlds. *)
Ltac proc_unfold :=
  unfold run, outcome, after, logged, tryCatch, tryCatchFinally, native,
    console_error, Alert_alert, setDevices, setConnectedDevice, setLoading,
    setScanning, setIsBtEnabled, modify, emit, throw, readState,
    mbind, Proc_bind, mret, Proc_ret in *.

Ltac proc := proc_unfold; simpl in *.

(** The same in the goal only, leaving [run], [outcome] and [logged] folded. *)
Ltac proc_goal :=
  unfold tryCatch, tryCatchFinally, native, console_error, Alert_alert,
    setDevices, setConnectedDevice, setLoading, setScanning, setIsBtEnabled,
    modify, emit, throw, readState, mbind, Proc_bind, mret, Proc_ret;
  simpl.

(** * Properties of the config plugin *)

(** What [withBluetoothClassic] leaves in each of the three keys. *)
Lemma withBluetoothClassic_lookup (cfg : ModConfig) (k : string) :
  modResults (withBluetoothClassic cfg) !! k =
    if decide (k = "UIBackgroundModes") then Some (PArray ["bluetooth-central"])
    else if decide (k = "NSBluetoothPeripheralUsageDescription")
         then Some (PString usageDescription)
    else if decide (k = "NSBluetoothAlwaysUsageDescription")
         then Some (PString usageDescription)
    else modResults cfg !! k.
Proof.
  unfold withBluetoothClassic, withInfoPlist, infoPlistAction; simpl.
  rewrite !lookup_insert.
  repeat case_decide; subst; congruence.
Qed.

(** C4, as the code has it: the two usage descriptions are set to the fixed
    sentence, the background-modes entry is REPLACED by the one-element list
    ["bluetooth-central"] whatever it held, and nothing else in the
    configuration changes. *)
Theorem withBluetoothClassic_writes (cfg : ModConfig) :
  let out := withBluetoothClassic cfg in
  modResults out !! "NSBluetoothAlwaysUsageDescription"
    = Some (PString usageDescription) /\
  modResults out !! "NSBluetoothPeripheralUsageDescription"
    = Some (PString usageDescription) /\
  modResults out !! "UIBackgroundModes" = Some (PArray ["bluetooth-central"]) /\
  untouchedPart (modResults out) = untouchedPart (modResults cfg) /\
  modRequest out = modRequest cfg.
Proof.
  cbv zeta. repeat split.
  - rewrite withBluetoothClassic_lookup. repeat case_decide; congruence.
  - rewrite withBluetoothClassic_lookup. repeat case_decide; congruence.
  - rewrite withBluetoothClassic_lookup. repeat case_decide; congruence.
  - apply map_eq. intros k. unfold untouchedPart, writtenKeys, foldr.
    rewrite !lookup_delete, withBluetoothClassic_lookup.
    repeat case_decide; congruence.
Qed.

(** C4, as stated, fails: an entry already present in the background-modes
    list does not survive the patch. *)
Lemma withBluetoothClassic_not_append :
  ~ (forall (cfg : ModConfig) (old : list string),
       modResults cfg !! "UIBackgroundModes" = Some (PArray old) ->
       exists new,
         modResults (withBluetoothClassic cfg) !! "UIBackgroundModes"
           = Some (PArray new) /\
         forall mode, mode ∈ old -> mode ∈ new).
Proof.
  intros claim.
  destruct (claim audioManifest ["audio"] eq_refl) as (new & Hnew & Hkeep).
  rewrite withBluetoothClassic_lookup in Hnew. simpl in Hnew.
  injection Hnew as <-.
  assert (Hin : "audio" ∈ ["audio"]) by (apply elem_of_cons; by left).
  apply Hkeep, elem_of_cons in Hin as [Heq | Hnil].
  - discriminate Heq.
  - by apply elem_of_nil in Hnil.
Qed.

(** C10: patching a patched configuration changes nothing. *)
Theorem withBluetoothClassic_idempotent (cfg : ModConfig) :
  withBluetoothClassic (withBluetoothClassic cfg) = withBluetoothClassic cfg.
Proof.
  assert (Hm : modResults (withBluetoothClassic (withBluetoothClassic cfg))
               = modResults (withBluetoothClassic cfg)).
  { apply map_eq. intros k. rewrite !withBluetoothClassic_lookup.
    repeat case_decide; congruence. }
  destruct cfg as [m q].
  unfold withBluetoothClassic, withInfoPlist, infoPlistAction in *.
  simpl in *. by rewrite Hm.
Qed.

(** * Properties of the screen handlers *)

(** ** Guaranteed cleanup *)

(** Whatever the body and the handler do, the world a [try/catch/finally]
    ends in is one the cleanup block has just produced. *)
Lemma tryCatchFinally_cleanup_last {A} (body : Proc A) handler cleanup w :
  exists w1, (tryCatchFinally body handler cleanup w).2 = (cleanup w1).2.
Proof.
  unfold tryCatchFinally.
  destruct (body w) as [[a | e] w1].
  - exists w1. by destruct (cleanup w1) as [[[] | e'] w2].
  - destruct (handler e w1) as [c w2]. exists w2.
    by destruct (cleanup w2) as [[[] | e'] w3].
Qed.

(** A handler that only logs and alerts cannot throw, and a setter as
    cleanup cannot either: such a [try/catch/finally] completes normally. *)
Lemma tryCatchFinally_contained (body : Proc unit) label title text f w :
  (tryCatchFinally body
     (fun error => console_error label error ;; Alert_alert title (text error))
     (modify f) w).1 = Normal tt.
Proof.
  proc. destruct (body w) as [[[] | e] w1]; reflexivity.
Qed.

(** ** checkBluetooth *)

(** [checkBluetooth] never throws. *)
Lemma checkBluetooth_total (env : Env) (w : World) :
  exists b, (checkBluetooth env w).1 = Normal b.
Proof.
  unfold checkBluetooth. proc.
  destruct (isBluetoothEnabled env) as [b | e]; simpl; eauto.
Qed.

(** When the query answers, the answer is stored and returned. *)
Lemma checkBluetooth_answered (env : Env) (s : ScreenState) (b : bool) :
  isBluetoothEnabled env = Normal b ->
  let r := run (checkBluetooth env) s in
  outcome r = Normal b /\ isBtEnabled (after r) = b /\
  logged r = [IsBluetoothEnabledCall].
Proof.
  intros H. unfold checkBluetooth. proc. by rewrite H.
Qed.

(** C2, as the code has it: when the adapter query throws, the error stays
    inside [checkBluetooth], it is logged with [console.error], the caller
    gets [false], and the stored adapter flag (like every other state
    cell) is left as it was. *)
Theorem checkBluetooth_query_fails (env : Env) (s : ScreenState) (e : JsError) :
  isBluetoothEnabled env = Throw e ->
  let r := run (checkBluetooth env) s in
  outcome r = Normal false /\
  logged r = [IsBluetoothEnabledCall; ConsoleError "Bluetooth check failed" e] /\
  after r = s.
Proof.
  intros H. unfold checkBluetooth. proc. by rewrite H.
Qed.

Lemma checkBluetooth_query_fails_witness :
  let r := run (checkBluetooth brokenAdapter) connectedToA in
  outcome r = Normal false /\
  logged r = [IsBluetoothEnabledCall;
              ConsoleError "Bluetooth check failed" nativeFailure] /\
  after r = connectedToA.
Proof. exact (checkBluetooth_query_fails brokenAdapter connectedToA nativeFailure eq_refl). Defined.

(** C2, as stated, fails: after a first check stored "enabled", a check
    whose query throws leaves the stored flag at "enabled". *)
Lemma checkBluetooth_failure_keeps_flag :
  ~ (forall (env : Env) (s : ScreenState) (e : JsError),
       isBluetoothEnabled env = Throw e ->
       isBtEnabled (after (run (checkBluetooth env) s)) = false).
Proof.
  intros claim.
  pose (s1 := after (run (checkBluetooth (androidPhone "13" RESULTS_GRANTED))
                         initialState)).
  specialize (claim brokenAdapter s1 nativeFailure eq_refl).
  discriminate claim.
Qed.

(** ** requestPermissions *)

Lemma parseInt_Some_nonempty (v : string) (n : Z) :
  parseInt v = Some n -> truthy (Some v) = true.
Proof. destruct v; [discriminate | reflexivity]. Qed.

(** The version test of line 46, for a version string that [parseInt]
    reads as the integer [n]. *)
Lemma olderAndroid_parsed (v : string) (n : Z) :
  parseInt v = Some n -> olderAndroid (Some v) = (n <? 12)%Z.
Proof.
  intros H. unfold olderAndroid.
  by rewrite (parseInt_Some_nonempty v n H), H.
Qed.


Lemma androidPermissions_parsed (v : string) (n : Z) :
  parseInt v = Some n ->
  androidPermissions (Some v) =
    if (n <? 12)%Z then [ACCESS_FINE_LOCATION]
    else [ACCESS_FINE_LOCATION; BLUETOOTH_SCAN; BLUETOOTH_CONNECT].
Proof.
  intros H. unfold androidPermissions.
  rewrite (olderAndroid_parsed v n H). by destruct (n <? 12)%Z.
Qed.

(** On Android exactly one request goes out, for [androidPermissions]. *)
Lemma requestPermissions_android_logged (env : Env) (s : ScreenState) :
  Platform_OS env = "android" ->
  logged (run (requestPermissions env) s)
    = [RequestMultipleCall (androidPermissions (Device_osVersion env))].
Proof.
  intros H. unfold requestPermissions. rewrite H. proc.
  by destruct (requestMultiple env _).
Qed.

(** C6: on Android, for a version string read as the integer [n], the
    requested set contains the scan and connect capabilities when
    [n >= 12] and contains neither when [n < 12]. *)
Theorem requestPermissions_scan_connect_threshold
    (env : Env) (s : ScreenState) (v : string) (n : Z) :
  Platform_OS env = "android" ->
  Device_osVersion env = Some v ->
  parseInt v = Some n ->
  exists permissions,
    logged (run (requestPermissions env) s) = [RequestMultipleCall permissions] /\
    ((12 <= n)%Z ->
       BLUETOOTH_SCAN ∈ permissions /\ BLUETOOTH_CONNECT ∈ permissions) /\
    ((n < 12)%Z ->
       (BLUETOOTH_SCAN ∉ permissions) /\ (BLUETOOTH_CONNECT ∉ permissions)).
Proof.
  intros Hos Hv Hn.
  exists (androidPermissions (Some v)). split.
  - rewrite <- Hv. by apply requestPermissions_android_logged.
  - rewrite (androidPermissions_parsed v n Hn).
    destruct (Z.ltb_spec n 12) as [Hlt | Hge]; split; intros H; try lia.
    + split; intros Hin;
        (apply elem_of_cons in Hin as [Hin | Hin]; [discriminate Hin |]);
        by apply elem_of_nil in Hin.
    + split; unfold BLUETOOTH_SCAN, BLUETOOTH_CONNECT; repeat constructor.
Qed.

Lemma requestPermissions_scan_connect_threshold_witness :
  (exists permissions,
     logged (run (requestPermissions (androidPhone "11" RESULTS_GRANTED))
                 initialState) = [RequestMultipleCall permissions] /\
     ((12 <= 11)%Z ->
        BLUETOOTH_SCAN ∈ permissions /\ BLUETOOTH_CONNECT ∈ permissions) /\
     ((11 < 12)%Z ->
        (BLUETOOTH_SCAN ∉ permissions) /\ (BLUETOOTH_CONNECT ∉ permissions))) /\
  (exists permissions,
     logged (run (requestPermissions (androidPhone "12" RESULTS_GRANTED))
                 initialState) = [RequestMultipleCall permissions] /\
     ((12 <= 12)%Z ->
        BLUETOOTH_SCAN ∈ permissions /\ BLUETOOTH_CONNECT ∈ permissions) /\
     ((12 < 12)%Z ->
        (BLUETOOTH_SCAN ∉ permissions) /\ (BLUETOOTH_CONNECT ∉ permissions))).
Proof.
  split.
  - apply (requestPermissions_scan_connect_threshold
             (androidPhone "11" RESULTS_GRANTED) initialState "11" 11);
      reflexivity.
  - apply (requestPermissions_scan_connect_threshold
             (androidPhone "12" RESULTS_GRANTED) initialState "12" 12);
      reflexivity.
Defined.

(** C5, as the code has it: on Android, for a version string read as the
    integer [n], a version below 12 requests the FINE-location capability
    alone, and a version from 12 on requests fine location, scan and
    connect. *)
Theorem requestPermissions_version_sets
    (env : Env) (s : ScreenState) (v : string) (n : Z) :
  Platform_OS env = "android" ->
  Device_osVersion env = Some v ->
  parseInt v = Some n ->
  ((n < 12)%Z ->
     logged (run (requestPermissions env) s)
       = [RequestMultipleCall [ACCESS_FINE_LOCATION]]) /\
  ((12 <= n)%Z ->
     logged (run (requestPermissions env) s)
       = [RequestMultipleCall
            [ACCESS_FINE_LOCATION; BLUETOOTH_SCAN; BLUETOOTH_CONNECT]]).
Proof.
  intros Hos Hv Hn.
  rewrite (requestPermissions_android_logged env s Hos), Hv,
    (androidPermissions_parsed v n Hn).
  destruct (Z.ltb_spec n 12); split; intros; first [reflexivity | lia].
Qed.

Lemma requestPermissions_version_sets_witness :
  logged (run (requestPermissions (androidPhone "11" RESULTS_GRANTED)) initialState)
    = [RequestMultipleCall [ACCESS_FINE_LOCATION]] /\
  logged (run (requestPermissions (androidPhone "12" RESULTS_GRANTED)) initialState)
    = [RequestMultipleCall
         [ACCESS_FINE_LOCATION; BLUETOOTH_SCAN; BLUETOOTH_CONNECT]].
Proof.
  split.
  - apply (requestPermissions_version_sets
             (androidPhone "11" RESULTS_GRANTED) initialState "11" 11);
      first [reflexivity | lia].
  - apply (requestPermissions_version_sets
             (androidPhone "12" RESULTS_GRANTED) initialState "12" 12);
      first [reflexivity | lia].
Defined.

(** C5, as stated, fails: on Android 11 the capability requested is not
    coarse location. *)
Lemma requestPermissions_not_coarse_location :
  ~ (forall (env : Env) (s : ScreenState) (v : string) (n : Z),
       Platform_OS env = "android" ->
       Device_osVersion env = Some v ->
       parseInt v = Some n ->
       (n < 12)%Z ->
       logged (run (requestPermissions env) s)
         = [RequestMultipleCall [ACCESS_COARSE_LOCATION]]).
Proof.
  intros claim.
  specialize (claim (androidPhone "11" RESULTS_GRANTED) initialState "11" 11%Z
                eq_refl eq_refl eq_refl eq_refl).
  discriminate claim.
Qed.

(** [every] over [Object.values] is a statement about each entry. *)
Lemma every_values_spec (o : gmap string string) (p : string -> bool) :
  every p (Object_values o) = true <-> map_Forall (fun _ st => p st = true) o.
Proof.
  unfold every, Object_values. rewrite forallb_forall. split.
  - intros H k st Hk. apply H, list_elem_of_In, list_elem_of_fmap.
    exists (k, st). split; [done | by apply elem_of_map_to_list].
  - intros H st Hin.
    apply list_elem_of_In, list_elem_of_fmap in Hin as ([k st'] & -> & Hin).
    apply elem_of_map_to_list in Hin. by apply (H k).
Qed.

(** On Android, when the permission service answers with a report, the
    handler returns a boolean, leaves the state alone, and returns [true]
    exactly when every status in the report is "granted"; with a report
    that covers the requested array, [true] means every requested
    capability was granted. *)
Lemma requestPermissions_android_all_or_nothing
    (env : Env) (s : ScreenState) (granted : gmap string string) :
  Platform_OS env = "android" ->
  requestMultiple env (androidPermissions (Device_osVersion env)) = Normal granted ->
  exists b : bool,
    outcome (run (requestPermissions env) s) = Normal b /\
    after (run (requestPermissions env) s) = s /\
    (b = true <-> map_Forall (fun _ st => st = RESULTS_GRANTED) granted) /\
    (b = true ->
     forall p, p ∈ androidPermissions (Device_osVersion env) ->
               is_Some (granted !! p) -> granted !! p = Some RESULTS_GRANTED).
Proof.
  intros Hos Hans. unfold requestPermissions. rewrite Hos. proc. rewrite Hans.
  simpl. eexists. split; [reflexivity |]. split; [reflexivity |].
  assert (Hiff : every (fun st => String.eqb st RESULTS_GRANTED) (Object_values granted)
                 = true <-> map_Forall (fun _ st => st = RESULTS_GRANTED) granted).
  { rewrite every_values_spec. unfold map_Forall.
    split; intros H k st Hk; apply String.eqb_eq; by apply (H k). }
  split; [exact Hiff |].
  intros Hb p _ [st Hst]. apply Hiff in Hb. by rewrite Hst, (Hb p st Hst).
Qed.

(** Off Android, with a module bound to [Permissions], one capability is
    asked for and the answer is compared with "granted". *)
Lemma requestPermissions_other_bound
    (env : Env) (s : ScreenState) (P : PermissionsModule) (r : PermissionResponse) :
  Platform_OS env <> "android" ->
  Permissions env = Some P ->
  askAsync P (BLUETOOTH P) = Normal r ->
  run (requestPermissions env) s
    = (Normal (String.eqb (status r) "granted"),
       {| screen := s; trace := [AskAsyncCall (BLUETOOTH P)] |}).
Proof.
  intros Hos HP Hans. unfold requestPermissions.
  apply String.eqb_neq in Hos. rewrite Hos, HP. proc. by rewrite Hans.
Qed.

(** C3, where the code departs from it: on a platform other than Android,
    in a global scope without [Permissions] (the file imports no such
    name), [requestPermissions] does not return a boolean: line 56 throws a
    ReferenceError before any capability is requested. *)
Theorem requestPermissions_unbound_throws (env : Env) (s : ScreenState) :
  String.eqb (Platform_OS env) "android" = false ->
  Permissions env = None ->
  run (requestPermissions env) s
    = (Throw (ReferenceError "Permissions"), {| screen := s; trace := [] |}).
Proof.
  intros Hos HP. unfold requestPermissions.
  rewrite Hos, HP. unfold run, throw. reflexivity.
Qed.

Lemma requestPermissions_unbound_throws_witness :
  run (requestPermissions iPhone) initialState
    = (Throw (ReferenceError "Permissions"),
       {| screen := initialState; trace := [] |}).
Proof.
  exact (requestPermissions_unbound_throws iPhone initialState eq_refl eq_refl).
Defined.

(** On the iPhone, a tap on the refresh button therefore always ends in
    the generic error alert, and the adapter is never queried. *)
Lemma discoverDevices_iPhone :
  logged (run (discoverDevices iPhone) initialState)
    = [ConsoleError "Discovery error" (ReferenceError "Permissions");
       AlertShown "Error"
         ("Failed to discover devices: " +:+ message (ReferenceError "Permissions"))].
Proof. reflexivity. Qed.

(** The handler only talks to the permission services: its result does
    not depend on the world it starts from, it leaves the state cells
    alone, and what it logs is a permission request. *)
Lemma requestPermissions_frame (env : Env) (s : ScreenState) (w : World) :
  requestPermissions env w
    = (outcome (run (requestPermissions env) s),
       {| screen := screen w;
          trace := trace w ++ logged (run (requestPermissions env) s) |}).
Proof.
  destruct w as [s0 t0]. unfold requestPermissions.
  destruct (String.eqb _ _).
  - proc. destruct (requestMultiple env _); reflexivity.
  - destruct (Permissions env) as [P |].
    + proc. destruct (askAsync P _); reflexivity.
    + proc. by rewrite app_nil_r.
Qed.

Lemma requestPermissions_logs_requests (env : Env) (s : ScreenState) :
  Forall (fun ev => isPermissionRequest ev = true)
         (logged (run (requestPermissions env) s)).
Proof.
  unfold requestPermissions.
  destruct (String.eqb _ _).
  - proc. destruct (requestMultiple env _); repeat constructor.
  - destruct (Permissions env) as [P |].
    + proc. destruct (askAsync P _); repeat constructor.
    + proc. constructor.
Qed.

(** ** discoverDevices *)

(** C7: after every call of [discoverDevices] the scanning flag is false:
    whatever the permission services, the adapter query and the discovery
    answer or throw, the [finally] block runs last; and the call itself
    completes normally, so nothing escapes it. *)
Theorem discoverDevices_clears_scanning (env : Env) (s : ScreenState) :
  scanning (after (run (discoverDevices env) s)) = false /\
  outcome (run (discoverDevices env) s) = Normal tt.
Proof.
  unfold run, after, outcome, discoverDevices. split.
  - match goal with
    | |- context [tryCatchFinally ?b ?h ?c ?w] =>
        destruct (tryCatchFinally_cleanup_last b h c w) as [w1 ->]
    end.
    reflexivity.
  - apply (tryCatchFinally_contained _ "Discovery error" "Error"
             (fun error => "Failed to discover devices: " +:+ message error)).
Qed.

(** [discoverDevices] executed symbolically: every way through it, with
    the state and the log it ends in. *)
Lemma discoverDevices_run (env : Env) (s : ScreenState) :
  run (discoverDevices env) s =
    let idle on found :=
      {| devices := found; connectedDevice := connectedDevice s;
         loading := loading s; scanning := false; isBtEnabled := on |} in
    let asked := logged (run (requestPermissions env) s) in
    let failed e :=
      [ConsoleError "Discovery error" e;
       AlertShown "Error" ("Failed to discover devices: " +:+ message e)] in
    match outcome (run (requestPermissions env) s) with
    | Throw e =>
        (Normal tt, {| screen := idle (isBtEnabled s) []; trace := asked ++ failed e |})
    | Normal false =>
        (Normal tt,
         {| screen := idle (isBtEnabled s) [];
            trace := asked ++
              [AlertShown "Permissions required"
                 "Bluetooth and location permissions are needed to find devices"] |})
    | Normal true =>
        match isBluetoothEnabled env with
        | Throw e =>
            (Normal tt,
             {| screen := idle (isBtEnabled s) [];
                trace := asked ++
                  [IsBluetoothEnabledCall;
                   ConsoleError "Bluetooth check failed" e;
                   AlertShown "Bluetooth disabled"
                     "Please enable Bluetooth to discover devices"] |})
        | Normal false =>
            (Normal tt,
             {| screen := idle false [];
                trace := asked ++
                  [IsBluetoothEnabledCall;
                   AlertShown "Bluetooth disabled"
                     "Please enable Bluetooth to discover devices"] |})
        | Normal true =>
            match startDiscovery env with
            | Normal found =>
                (Normal tt,
                 {| screen := idle true found;
                    trace := asked ++ [IsBluetoothEnabledCall; StartDiscoveryCall] |})
            | Throw e =>
                (Normal tt,
                 {| screen := idle true [];
                    trace := asked ++
                      [IsBluetoothEnabledCall; StartDiscoveryCall] ++ failed e |})
            end
        end
    end.
Proof.
  unfold discoverDevices, checkBluetooth, run at 1. proc_goal.
  rewrite (requestPermissions_frame env s).
  destruct (outcome (run (requestPermissions env) s)) as [[] | e]; simpl.
  - destruct (isBluetoothEnabled env) as [[] | e]; simpl.
    + destruct (startDiscovery env) as [found | e]; simpl;
        by rewrite <- ?app_assoc.
    + by rewrite <- ?app_assoc.
    + by rewrite <- ?app_assoc.
  - reflexivity.
  - by rewrite <- ?app_assoc.
Qed.

(** The ways through [discoverDevices], one lemma each. *)

Lemma discoverDevices_denied (env : Env) (s : ScreenState) :
  outcome (run (requestPermissions env) s) = Normal false ->
  run (discoverDevices env) s
    = (Normal tt,
       {| screen := {| devices := []; connectedDevice := connectedDevice s;
                       loading := loading s; scanning := false;
                       isBtEnabled := isBtEnabled s |};
          trace := logged (run (requestPermissions env) s)
                   ++ [AlertShown "Permissions required"
                         "Bluetooth and location permissions are needed to find devices"] |}).
Proof. intros H. rewrite discoverDevices_run. cbv zeta. by rewrite H. Qed.

Lemma discoverDevices_permissions_throw (env : Env) (s : ScreenState) (e : JsError) :
  outcome (run (requestPermissions env) s) = Throw e ->
  run (discoverDevices env) s
    = (Normal tt,
       {| screen := {| devices := []; connectedDevice := connectedDevice s;
                       loading := loading s; scanning := false;
                       isBtEnabled := isBtEnabled s |};
          trace := logged (run (requestPermissions env) s)
                   ++ [ConsoleError "Discovery error" e;
                       AlertShown "Error"
                         ("Failed to discover devices: " +:+ message e)] |}).
Proof. intros H. rewrite discoverDevices_run. cbv zeta. by rewrite H. Qed.

Lemma discoverDevices_adapter_off (env : Env) (s : ScreenState) :
  outcome (run (requestPermissions env) s) = Normal true ->
  isBluetoothEnabled env = Normal false ->
  run (discoverDevices env) s
    = (Normal tt,
       {| screen := {| devices := []; connectedDevice := connectedDevice s;
                       loading := loading s; scanning := false;
                       isBtEnabled := false |};
          trace := logged (run (requestPermissions env) s)
                   ++ [IsBluetoothEnabledCall;
                       AlertShown "Bluetooth disabled"
                         "Please enable Bluetooth to discover devices"] |}).
Proof. intros H1 H2. rewrite discoverDevices_run. cbv zeta. by rewrite H1, H2. Qed.

Lemma discoverDevices_found (env : Env) (s : ScreenState) (found : list BluetoothDevice) :
  outcome (run (requestPermissions env) s) = Normal true ->
  isBluetoothEnabled env = Normal true ->
  startDiscovery env = Normal found ->
  run (discoverDevices env) s
    = (Normal tt,
       {| screen := {| devices := found; connectedDevice := connectedDevice s;
                       loading := loading s; scanning := false;
                       isBtEnabled := true |};
          trace := logged (run (requestPermissions env) s)
                   ++ [IsBluetoothEnabledCall; StartDiscoveryCall] |}).
Proof.
  intros H1 H2 H3. rewrite discoverDevices_run. cbv zeta. by rewrite H1, H2, H3.
Qed.

(** C9: when the permission request is denied, [discoverDevices] shows the
    "Permissions required" alert and stops: neither the adapter query nor
    the discovery is called. *)
Theorem discoverDevices_denied_skips_adapter (env : Env) (s : ScreenState) :
  outcome (run (requestPermissions env) s) = Normal false ->
  let r := run (discoverDevices env) s in
  let alert := AlertShown "Permissions required"
                 "Bluetooth and location permissions are needed to find devices" in
  logged r = (logged (run (requestPermissions env) s) ++ [alert])%list /\
  (IsBluetoothEnabledCall ∉ logged r) /\
  (StartDiscoveryCall ∉ logged r) /\
  alert ∈ logged r.
Proof.
  intros Hdenied. cbv zeta.
  rewrite (discoverDevices_denied env s Hdenied).
  unfold logged at 1 3 4 5. cbn [snd trace].
  pose proof (requestPermissions_logs_requests env s) as Hreq.
  rewrite Forall_forall in Hreq.
  repeat split.
  - intros [Hin | Hin]%elem_of_app; [by specialize (Hreq _ Hin) |].
    apply elem_of_cons in Hin as [Hin | Hin]; [discriminate Hin |].
    by apply elem_of_nil in Hin.
  - intros [Hin | Hin]%elem_of_app; [by specialize (Hreq _ Hin) |].
    apply elem_of_cons in Hin as [Hin | Hin]; [discriminate Hin |].
    by apply elem_of_nil in Hin.
  - apply elem_of_app. right. constructor.
Qed.

Lemma discoverDevices_denied_skips_adapter_witness :
  let r := run (discoverDevices (androidPhone "13" RESULTS_DENIED)) initialState in
  let alert := AlertShown "Permissions required"
                 "Bluetooth and location permissions are needed to find devices" in
  logged r = (logged (run (requestPermissions (androidPhone "13" RESULTS_DENIED))
                          initialState) ++ [alert])%list /\
  (IsBluetoothEnabledCall ∉ logged r) /\
  (StartDiscoveryCall ∉ logged r) /\
  alert ∈ logged r.
Proof.
  apply (discoverDevices_denied_skips_adapter
           (androidPhone "13" RESULTS_DENIED) initialState).
  vm_compute. reflexivity.
Defined.

(** ** connectToDevice *)

(** [connectToDevice] executed symbolically. *)
Lemma connectToDevice_run (env : Env) (device : BluetoothDevice) (s : ScreenState) :
  run (connectToDevice env device) s =
    let idle connected :=
      {| devices := devices s; connectedDevice := connected;
         loading := false; scanning := scanning s;
         isBtEnabled := isBtEnabled s |} in
    match connect env device with
    | Normal true =>
        (Normal tt,
         {| screen := idle (Some device); trace := [ConnectCall device] |})
    | Normal false =>
        (Normal tt,
         {| screen := idle (connectedDevice s);
            trace := [ConnectCall device;
                      AlertShown "Connection failed"
                        "Could not connect to the device"] |})
    | Throw e =>
        (Normal tt,
         {| screen := idle (connectedDevice s);
            trace := [ConnectCall device;
                      ConsoleError "Connection error" e;
                      AlertShown "Error" ("Connection failed: " +:+ message e)] |})
    end.
Proof.
  unfold connectToDevice, run. proc_goal.
  by destruct (connect env device) as [[] | e].
Qed.

(** C8: every call of [connectToDevice] ends with the loading flag false
    and never throws.  When [connect()] resolves to [true] the device is
    recorded as connected.  When it resolves to [false], or throws, an
    alert is shown and the recorded device is what it was before the call:
    a disconnected screen stays disconnected. *)
Theorem connectToDevice_outcomes
    (env : Env) (device : BluetoothDevice) (s : ScreenState) :
  let r := run (connectToDevice env device) s in
  outcome r = Normal tt /\
  loading (after r) = false /\
  match connect env device with
  | Normal true =>
      connectedDevice (after r) = Some device /\
      logged r = [ConnectCall device]
  | Normal false =>
      connectedDevice (after r) = connectedDevice s /\
      logged r = [ConnectCall device;
                  AlertShown "Connection failed" "Could not connect to the device"]
  | Throw e =>
      connectedDevice (after r) = connectedDevice s /\
      logged r = [ConnectCall device;
                  ConsoleError "Connection error" e;
                  AlertShown "Error" ("Connection failed: " +:+ message e)]
  end.
Proof.
  cbv zeta. rewrite connectToDevice_run. cbv zeta.
  destruct (connect env device) as [[] | e]; unfold outcome, after, logged;
    simpl; auto.
Qed.

(** From the disconnected screen, a failed connect leaves it disconnected
    and the status card keeps printing "Not Connected". *)
Lemma connectToDevice_stays_disconnected
    (env : Env) (device : BluetoothDevice) (s : ScreenState) :
  connectedDevice s = None ->
  connect env device <> Normal true ->
  connectedDevice (after (run (connectToDevice env device) s)) = None /\
  statusTitle (after (run (connectToDevice env device) s)) = "Not Connected".
Proof.
  intros Hs Hfail. rewrite connectToDevice_run. cbv zeta.
  destruct (connect env device) as [[] | e]; [done | |];
    unfold after, statusTitle; simpl; by rewrite Hs.
Qed.

(** The buttons of the device list are disabled while a device is
    connected (line 221), so the handler runs from the disconnected
    screen; either way at most one device is recorded afterwards, the one
    just connected or the one recorded before. *)
Lemma connectToDevice_one_device
    (env : Env) (device : BluetoothDevice) (s : ScreenState) :
  let s' := after (run (connectToDevice env device) s) in
  connectedDevice s' = Some device \/ connectedDevice s' = connectedDevice s.
Proof.
  cbv zeta. rewrite connectToDevice_run. cbv zeta.
  destruct (connect env device) as [[] | e]; unfold after; simpl; auto.
Qed.

(** ** disconnectDevice *)

(** With no device connected the handler does nothing at all. *)
Lemma disconnectDevice_noop (env : Env) (s : ScreenState) :
  connectedDevice s = None ->
  run (disconnectDevice env) s = (Normal tt, {| screen := s; trace := [] |}).
Proof.
  intros Hs. unfold disconnectDevice, run. proc_goal. by rewrite Hs.
Qed.

(** With a device connected: whatever [disconnect()] resolves to, the
    device is forgotten; only a thrown error keeps it. *)
Lemma disconnectDevice_run (env : Env) (device : BluetoothDevice) (s : ScreenState) :
  connectedDevice s = Some device ->
  run (disconnectDevice env) s =
    let idle connected :=
      {| devices := devices s; connectedDevice := connected;
         loading := false; scanning := scanning s;
         isBtEnabled := isBtEnabled s |} in
    match disconnect env device with
    | Normal _ =>
        (Normal tt, {| screen := idle None; trace := [DisconnectCall device] |})
    | Throw e =>
        (Normal tt,
         {| screen := idle (Some device);
            trace := [DisconnectCall device;
                      ConsoleError "Disconnection error" e;
                      AlertShown "Error" ("Disconnection failed: " +:+ message e)] |})
    end.
Proof.
  intros Hs. unfold disconnectDevice, run. proc_goal. rewrite Hs. simpl.
  destruct (disconnect env device) as [b | e]; simpl; rewrite ?Hs; reflexivity.
Qed.

(** The loading flag is false after every call that found a device. *)
Lemma disconnectDevice_clears_loading (env : Env) (device : BluetoothDevice)
    (s : ScreenState) :
  connectedDevice s = Some device ->
  loading (after (run (disconnectDevice env) s)) = false /\
  outcome (run (disconnectDevice env) s) = Normal tt.
Proof.
  intros Hs. rewrite (disconnectDevice_run env device s Hs). cbv zeta.
  destruct (disconnect env device); split; reflexivity.
Qed.

(** C1, where the code departs from it: with a device connected, when its
    [disconnect()] resolves to [false] the handler still records "no device
    connected"; the status card prints "Not Connected" and no alert is
    shown. *)
Theorem disconnectDevice_ignores_false
    (env : Env) (device : BluetoothDevice) (s : ScreenState) :
  connectedDevice s = Some device ->
  disconnect env device = Normal false ->
  let r := run (disconnectDevice env) s in
  outcome r = Normal tt /\
  connectedDevice (after r) = None /\
  statusTitle (after r) = "Not Connected" /\
  loading (after r) = false /\
  logged r = [DisconnectCall device].
Proof.
  intros Hs Hfalse. cbv zeta.
  rewrite (disconnectDevice_run env device s Hs). cbv zeta.
  rewrite Hfalse. unfold outcome, after, logged, statusTitle. simpl.
  repeat split.
Qed.

Lemma disconnectDevice_ignores_false_witness :
  let r := run (disconnectDevice refusingDevice) connectedToA in
  outcome r = Normal tt /\
  connectedDevice (after r) = None /\
  statusTitle (after r) = "Not Connected" /\
  loading (after r) = false /\
  logged r = [DisconnectCall deviceA].
Proof.
  exact (disconnectDevice_ignores_false refusingDevice deviceA connectedToA
           eq_refl eq_refl).
Defined.

(** The parts of C1 the code does keep: a thrown error leaves the device
    recorded, logs the error and shows an alert. *)
Lemma disconnectDevice_throw_keeps_device
    (env : Env) (device : BluetoothDevice) (s : ScreenState) (e : JsError) :
  connectedDevice s = Some device ->
  disconnect env device = Throw e ->
  let r := run (disconnectDevice env) s in
  outcome r = Normal tt /\
  connectedDevice (after r) = Some device /\
  loading (after r) = false /\
  logged r = [DisconnectCall device;
              ConsoleError "Disconnection error" e;
              AlertShown "Error" ("Disconnection failed: " +:+ message e)].
Proof.
  intros Hs Hthrow. cbv zeta.
  rewrite (disconnectDevice_run env device s Hs). cbv zeta.
  rewrite Hthrow. repeat split.
Qed.

(** The scenario of the specification: connect, then disconnect. *)
Lemma connect_then_disconnect (env : Env) (device : BluetoothDevice) (s : ScreenState) :
  connect env device = Normal true ->
  disconnect env device = Normal true ->
  let s1 := after (run (connectToDevice env device) s) in
  connectedDevice s1 = Some device /\
  connectedDevice (after (run (disconnectDevice env) s1)) = None.
Proof.
  intros Hc Hd. cbv zeta. rewrite connectToDevice_run. cbv zeta. rewrite Hc.
  split; [reflexivity |].
  rewrite (disconnectDevice_run env device); [| reflexivity].
  cbv zeta. by rewrite Hd.
Qed.

(** * Further properties of the handlers *)

(** ** checkBluetooth *)

(** X1: [checkBluetooth] never throws and writes no state cell other than
    the adapter flag; when the query answers, the answer is both stored
    and returned; the adapter is queried exactly once. *)
Theorem checkBluetooth_contained (env : Env) (s : ScreenState) :
  let r := run (checkBluetooth env) s in
  devices (after r) = devices s /\
  connectedDevice (after r) = connectedDevice s /\
  loading (after r) = loading s /\
  scanning (after r) = scanning s /\
  List.filter isNativeCall (logged r) = [IsBluetoothEnabledCall] /\
  match isBluetoothEnabled env with
  | Normal b => outcome r = Normal b /\ isBtEnabled (after r) = b
  | Throw _ => outcome r = Normal false /\ isBtEnabled (after r) = isBtEnabled s
  end.
Proof.
  cbv zeta. unfold checkBluetooth, run. proc_goal.
  destruct (isBluetoothEnabled env) as [b | e]; unfold after, outcome, logged;
    simpl; repeat split.
Qed.

(** ** requestPermissions *)

(** X2: on Android, when the permission service answers with a report,
    the handler returns [true] exactly when every status in the report is
    "granted"; the keys of the report are not looked at. *)
Theorem requestPermissions_android_by_values
    (env : Env) (s : ScreenState) (granted : gmap string string) :
  Platform_OS env = "android" ->
  requestMultiple env (androidPermissions (Device_osVersion env)) = Normal granted ->
  outcome (run (requestPermissions env) s)
    = Normal (bool_decide (map_Forall (fun _ st => st = RESULTS_GRANTED) granted)).
Proof.
  intros Hos Hans. unfold requestPermissions. rewrite Hos.
  unfold run, outcome. proc_goal. rewrite Hans. simpl. f_equal.
  apply eq_true_iff_eq. rewrite every_values_spec, bool_decide_eq_true.
  unfold map_Forall. split; intros H k st Hk; apply String.eqb_eq; by apply (H k).
Qed.

Lemma requestPermissions_android_by_values_witness :
  outcome (run (requestPermissions (androidPhone "13" RESULTS_DENIED)) initialState)
    = Normal (bool_decide
                (map_Forall (fun _ st => st = RESULTS_GRANTED)
                   (list_to_map
                      ((fun p => (p, RESULTS_DENIED))
                         <$> [ACCESS_FINE_LOCATION; BLUETOOTH_SCAN; BLUETOOTH_CONNECT])
                    : gmap string string))).
Proof.
  exact (requestPermissions_android_by_values
           (androidPhone "13" RESULTS_DENIED) initialState _ eq_refl eq_refl).
Defined.

(** X3: on Android, when the report has an entry for every requested
    capability, the handler returns [true] only if each requested
    capability is reported "granted", and it does return [true] when the
    report holds the requested capabilities only, all granted. *)
Theorem requestPermissions_android_requested
    (env : Env) (s : ScreenState) (granted : gmap string string) :
  Platform_OS env = "android" ->
  requestMultiple env (androidPermissions (Device_osVersion env)) = Normal granted ->
  (forall p, p ∈ androidPermissions (Device_osVersion env) -> is_Some (granted !! p)) ->
  exists b : bool,
    outcome (run (requestPermissions env) s) = Normal b /\
    (b = true ->
       forall p, p ∈ androidPermissions (Device_osVersion env) ->
                 granted !! p = Some RESULTS_GRANTED) /\
    ((forall p st, granted !! p = Some st ->
        p ∈ androidPermissions (Device_osVersion env) /\ st = RESULTS_GRANTED) ->
     b = true).
Proof.
  intros Hos Hans Hcover.
  destruct (requestPermissions_android_all_or_nothing env s granted Hos Hans)
    as (b & Hout & _ & Hiff & _).
  exists b. split; [exact Hout |]. split.
  - intros Hb p Hp. destruct (Hcover p Hp) as [st Hst].
    apply Hiff in Hb. by rewrite Hst, (Hb p st Hst).
  - intros Hall. apply Hiff. intros p st Hst. by apply (Hall p st).
Qed.

Lemma requestPermissions_android_requested_witness :
  exists b : bool,
    outcome (run (requestPermissions (androidPhone "11" RESULTS_GRANTED)) initialState)
      = Normal b /\
    (b = true ->
       forall p, p ∈ androidPermissions (Some "11") ->
                 answerGranted11 !! p = Some RESULTS_GRANTED) /\
    ((forall p st, answerGranted11 !! p = Some st ->
        p ∈ androidPermissions (Some "11") /\ st = RESULTS_GRANTED) ->
     b = true).
Proof.
  apply (requestPermissions_android_requested
           (androidPhone "11" RESULTS_GRANTED) initialState answerGranted11).
  - reflexivity.
  - reflexivity.
  - intros p Hp. apply elem_of_cons in Hp as [-> | Hp].
    + exists RESULTS_GRANTED. reflexivity.
    + by apply elem_of_nil in Hp.
Defined.

(** X4: on Android an empty report counts as a grant: [every] over no
    status at all is [true]. *)
Theorem requestPermissions_android_empty_report (env : Env) (s : ScreenState) :
  Platform_OS env = "android" ->
  requestMultiple env (androidPermissions (Device_osVersion env)) = Normal ∅ ->
  outcome (run (requestPermissions env) s) = Normal true.
Proof.
  intros Hos Hans. unfold requestPermissions. rewrite Hos.
  unfold run, outcome. proc_goal. rewrite Hans. simpl.
  unfold Object_values. by rewrite map_to_list_empty.
Qed.

Lemma requestPermissions_android_empty_report_witness :
  outcome (run (requestPermissions silentService) initialState) = Normal true.
Proof.
  exact (requestPermissions_android_empty_report silentService initialState
           eq_refl eq_refl).
Defined.



(** X6: [requestPermissions] writes no state cell, shows no alert, makes
    no call into the Bluetooth library, and sends at most one permission
    request. *)
Theorem requestPermissions_only_asks (env : Env) (s : ScreenState) :
  let r := run (requestPermissions env) s in
  after r = s /\
  alerts (logged r) = [] /\
  List.filter isNativeCall (logged r) = [] /\
  (length (logged r) <= 1)%nat.
Proof.
  cbv zeta. unfold requestPermissions, run, after, logged, alerts.
  destruct (String.eqb _ _).
  - proc_goal. destruct (requestMultiple env _); simpl; repeat split; lia.
  - destruct (Permissions env) as [P |].
    + proc_goal. destruct (askAsync P _); simpl; repeat split; lia.
    + unfold throw. simpl. repeat split; lia.
Qed.

(** X7: on Android an error thrown by the permission service is not
    caught by [requestPermissions]: the same error reaches the caller. *)
Theorem requestPermissions_android_rethrows
    (env : Env) (s : ScreenState) (e : JsError) :
  Platform_OS env = "android" ->
  requestMultiple env (androidPermissions (Device_osVersion env)) = Throw e ->
  outcome (run (requestPermissions env) s) = Throw e.
Proof.
  intros Hos Hans. unfold requestPermissions. rewrite Hos.
  unfold run, outcome. proc_goal. by rewrite Hans.
Qed.

Lemma requestPermissions_android_rethrows_witness :
  outcome (run (requestPermissions failingPhone) initialState) = Throw nativeFailure.
Proof.
  exact (requestPermissions_android_rethrows failingPhone initialState nativeFailure
           eq_refl eq_refl).
Defined.

(** X8: off Android, when a module is bound to [Permissions] and answers,
    exactly one capability, [Permissions.BLUETOOTH], is asked for, and the
    result is [true] exactly when the status is the string "granted". *)
Theorem requestPermissions_other_platform
    (env : Env) (s : ScreenState) (P : PermissionsModule) (r : PermissionResponse) :
  String.eqb (Platform_OS env) "android" = false ->
  Permissions env = Some P ->
  askAsync P (BLUETOOTH P) = Normal r ->
  outcome (run (requestPermissions env) s)
    = Normal (bool_decide (status r = "granted")) /\
  logged (run (requestPermissions env) s) = [AskAsyncCall (BLUETOOTH P)].
Proof.
  intros Hos HP Hans. unfold requestPermissions. rewrite Hos, HP.
  unfold run, outcome, logged. proc_goal. rewrite Hans. simpl. split; [| reflexivity].
  f_equal. apply eq_true_iff_eq.
  by rewrite String.eqb_eq, bool_decide_eq_true.
Qed.

Lemma requestPermissions_other_platform_witness :
  outcome (run (requestPermissions patchedPhone) initialState)
    = Normal (bool_decide ("granted" = "granted")) /\
  logged (run (requestPermissions patchedPhone) initialState)
    = [AskAsyncCall "bluetooth"].
Proof.
  exact (requestPermissions_other_platform patchedPhone initialState
           grantingModule {| status := "granted" |} eq_refl eq_refl eq_refl).
Defined.

(** ** The version test reads the leading number only *)

Lemma digit_not_space_or_sign (c : ascii) (d : Z) :
  digitValue c = Some d ->
  isWhiteSpace c = false /\ c <> "-"%char /\ c <> "+"%char.
Proof.
  destruct c as [[] [] [] [] [] [] [] []]; vm_compute; intros H;
    first [discriminate H | repeat split; discriminate].
Qed.

Lemma parseDigits_stops (digits rest : string) (c : ascii) (acc : option Z) :
  allDigits digits = true ->
  digitValue c = None ->
  parseDigits acc (digits +:+ String c rest) = parseDigits acc digits.
Proof.
  intros Hd Hc. revert acc.
  induction digits as [| x digits IH]; intros acc; simpl.
  - by rewrite Hc.
  - simpl in Hd. destruct (digitValue x) as [d |]; [| discriminate Hd].
    by apply IH.
Qed.

Lemma parseInt_leading_number (digits rest : string) (c : ascii) :
  allDigits digits = true ->
  digits <> "" ->
  digitValue c = None ->
  parseInt (digits +:+ String c rest) = parseInt digits.
Proof.
  intros Hd Hne Hc.
  destruct digits as [| x digits]; [done |].
  pose proof Hd as Hx. simpl in Hx.
  destruct (digitValue x) as [d |] eqn:Hdx; [| discriminate Hx].
  destruct (digit_not_space_or_sign x d Hdx) as (Hws & Hminus & Hplus).
  assert (Hgo : forall r, parseInt (String x r) = parseDigits None (String x r)).
  { intros r. unfold parseInt. simpl trimStart. rewrite Hws.
    destruct (Ascii.ascii_dec x "-") as [-> | _]; [done |].
    destruct (Ascii.ascii_dec x "+") as [-> | _]; [done |].
    destruct x as [[] [] [] [] [] [] [] []]; try reflexivity; done. }
  change (String x digits +:+ String c rest)
    with (String x (digits +:+ String c rest)).
  rewrite !Hgo.
  change (String x (digits +:+ String c rest))
    with (String x digits +:+ String c rest).
  by apply parseDigits_stops.
Qed.

(** X9: the version test looks at the leading integer only: a version
    string made of a run of digits followed by anything that is not a
    digit ("8.1.0", "12L") requests what its leading number alone
    requests. *)
Theorem androidPermissions_major_only (major rest : string) (c : ascii) :
  allDigits major = true ->
  major <> "" ->
  digitValue c = None ->
  androidPermissions (Some (major +:+ String c rest))
    = androidPermissions (Some major).
Proof.
  intros Hd Hne Hc. unfold androidPermissions, olderAndroid.
  rewrite (parseInt_leading_number major rest c Hd Hne Hc).
  destruct major as [| x major]; [done |]. reflexivity.
Qed.

Lemma androidPermissions_major_only_witness :
  androidPermissions (Some "8.1.0") = androidPermissions (Some "8").
Proof.
  apply (androidPermissions_major_only "8" "1.0" "."%char);
    [reflexivity | discriminate | reflexivity].
Defined.

(** ** discoverDevices, path by path *)

Lemma requestPermissions_log_kinds (env : Env) (s : ScreenState) :
  alerts (logged (run (requestPermissions env) s)) = [] /\
  List.filter isNativeCall (logged (run (requestPermissions env) s)) = [].
Proof.
  pose proof (requestPermissions_logs_requests env s) as Hreq.
  induction Hreq as [| ev evs Hev _ [IH1 IH2]]; [done |].
  unfold alerts in *. simpl. rewrite IH1, IH2.
  destruct ev; try discriminate Hev; done.
Qed.

Lemma requestPermissions_log_no_call (env : Env) (s : ScreenState) (ev : Event) :
  isNativeCall ev = true -> ev ∉ logged (run (requestPermissions env) s).
Proof.
  intros Hev Hin.
  pose proof (requestPermissions_logs_requests env s) as Hreq.
  rewrite Forall_forall in Hreq. specialize (Hreq ev Hin).
  destruct ev; discriminate.
Qed.

(** Splitting the log of [discoverDevices] into what [requestPermissions]
    logged and what came after. *)
Ltac discover_paths env s :=
  rewrite ?(discoverDevices_run env s); cbv zeta;
  destruct (requestPermissions_log_kinds env s) as [Hquiet Hnocall];
  pose proof (requestPermissions_log_no_call env s) as Hnone;
  destruct (outcome (run (requestPermissions env) s)) as [[] | ?];
  [ destruct (isBluetoothEnabled env) as [[] | ?];
    [ destruct (startDiscovery env) as [? | ?] | | ] | | ];
  unfold alerts, logged, after, outcome in *; cbn [fst snd screen trace] in *;
  rewrite ?List.filter_app, ?Hquiet, ?Hnocall; cbn [List.filter isAlert isNativeCall app].

(** X10: with permissions granted, when the adapter is reported disabled
    or the adapter query throws, [discoverDevices] shows the
    "Bluetooth disabled" alert as its only alert, leaves the device list
    empty, ends with scanning false, and never starts a discovery. *)
Theorem discoverDevices_adapter_not_enabled (env : Env) (s : ScreenState) :
  outcome (run (requestPermissions env) s) = Normal true ->
  match isBluetoothEnabled env with Normal true => False | _ => True end ->
  let r := run (discoverDevices env) s in
  devices (after r) = [] /\
  scanning (after r) = false /\
  alerts (logged r)
    = [AlertShown "Bluetooth disabled" "Please enable Bluetooth to discover devices"] /\
  (StartDiscoveryCall ∉ logged r).
Proof.
  intros Hgranted Hoff. cbv zeta.
  assert (Hno : forall tl, StartDiscoveryCall ∉ tl ->
            StartDiscoveryCall ∉ (logged (run (requestPermissions env) s) ++ tl)%list).
  { intros tl Htl [Hin | Hin]%elem_of_app; [| done].
    by apply (requestPermissions_log_no_call env s StartDiscoveryCall). }
  rewrite (discoverDevices_run env s). cbv zeta. rewrite Hgranted.
  destruct (requestPermissions_log_kinds env s) as [Hquiet _].
  unfold alerts in Hquiet.
  destruct (isBluetoothEnabled env) as [[] | e]; [done | |];
    unfold after, alerts; unfold logged at 1 3;
    cbn [fst snd screen trace devices scanning];
    rewrite List.filter_app, Hquiet;
    (split; [reflexivity |]); (split; [reflexivity |]); (split; [reflexivity |]);
    apply Hno; intros Hin;
    repeat (apply elem_of_cons in Hin as [Hin | Hin]; [discriminate Hin |]);
    by apply elem_of_nil in Hin.
Qed.

Lemma discoverDevices_adapter_not_enabled_witness :
  (let r := run (discoverDevices adapterOff) foundB in
   devices (after r) = [] /\
   scanning (after r) = false /\
   alerts (logged r)
     = [AlertShown "Bluetooth disabled" "Please enable Bluetooth to discover devices"] /\
   (StartDiscoveryCall ∉ logged r)) /\
  (let r := run (discoverDevices brokenAdapter) foundB in
   devices (after r) = [] /\
   scanning (after r) = false /\
   alerts (logged r)
     = [AlertShown "Bluetooth disabled" "Please enable Bluetooth to discover devices"] /\
   (StartDiscoveryCall ∉ logged r)).
Proof.
  split.
  - apply (discoverDevices_adapter_not_enabled adapterOff foundB);
      [vm_compute; reflexivity | exact I].
  - apply (discoverDevices_adapter_not_enabled brokenAdapter foundB);
      [vm_compute; reflexivity | exact I].
Defined.

(** X11: when permissions are granted, the adapter is enabled and the
    discovery answers, the device list is replaced by the answer whatever
    it held before, the adapter flag is set, scanning ends false, and no
    alert is shown. *)
Theorem discoverDevices_replaces_list
    (env : Env) (s : ScreenState) (found : list BluetoothDevice) :
  outcome (run (requestPermissions env) s) = Normal true ->
  isBluetoothEnabled env = Normal true ->
  startDiscovery env = Normal found ->
  let r := run (discoverDevices env) s in
  devices (after r) = found /\
  isBtEnabled (after r) = true /\
  scanning (after r) = false /\
  alerts (logged r) = [].
Proof.
  intros Hgranted Hon Hfound. cbv zeta.
  rewrite (discoverDevices_run env s). cbv zeta. rewrite Hgranted, Hon, Hfound.
  destruct (requestPermissions_log_kinds env s) as [Hquiet _].
  unfold alerts, logged, after, outcome in *. cbn [fst snd screen trace] in *.
  rewrite List.filter_app, Hquiet. repeat split.
Qed.

Lemma discoverDevices_replaces_list_witness :
  let r := run (discoverDevices (androidPhone "13" RESULTS_GRANTED)) foundB in
  devices (after r) = [deviceA] /\
  isBtEnabled (after r) = true /\
  scanning (after r) = false /\
  alerts (logged r) = [].
Proof.
  apply (discoverDevices_replaces_list (androidPhone "13" RESULTS_GRANTED)
           foundB [deviceA]); [vm_compute; reflexivity | reflexivity | reflexivity].
Defined.

(** X12: when the discovery itself throws, the list shown before the scan
    is gone (the list is empty), the error is logged and shown in one
    alert that carries its message, and the discovery is not tried
    again. *)
Theorem discoverDevices_discovery_throws
    (env : Env) (s : ScreenState) (e : JsError) :
  outcome (run (requestPermissions env) s) = Normal true ->
  isBluetoothEnabled env = Normal true ->
  startDiscovery env = Throw e ->
  let r := run (discoverDevices env) s in
  outcome r = Normal tt /\
  devices (after r) = [] /\
  scanning (after r) = false /\
  alerts (logged r)
    = [AlertShown "Error" ("Failed to discover devices: " +:+ message e)] /\
  List.filter isNativeCall (logged r)
    = [IsBluetoothEnabledCall; StartDiscoveryCall] /\
  ConsoleError "Discovery error" e ∈ logged r.
Proof.
  intros Hgranted Hon Hthrow. cbv zeta.
  rewrite (discoverDevices_run env s). cbv zeta. rewrite Hgranted, Hon, Hthrow.
  destruct (requestPermissions_log_kinds env s) as [Hquiet Hnocall].
  unfold alerts, logged, after, outcome in *. cbn [fst snd screen trace] in *.
  rewrite !List.filter_app, Hquiet, Hnocall.
  repeat split. apply elem_of_app. right. do 2 constructor. constructor.
Qed.

Lemma discoverDevices_discovery_throws_witness :
  let r := run (discoverDevices discoveryFails) foundB in
  outcome r = Normal tt /\
  devices (after r) = [] /\
  scanning (after r) = false /\
  alerts (logged r)
    = [AlertShown "Error"
         ("Failed to discover devices: " +:+ message nativeFailure)] /\
  List.filter isNativeCall (logged r)
    = [IsBluetoothEnabledCall; StartDiscoveryCall] /\
  ConsoleError "Discovery error" nativeFailure ∈ logged r.
Proof.
  apply (discoverDevices_discovery_throws discoveryFails foundB nativeFailure);
    [vm_compute; reflexivity | reflexivity | reflexivity].
Defined.

(** X13: when [requestPermissions] throws, [discoverDevices] catches the
    error: it is logged and shown in the generic error alert, and neither
    the adapter query nor the discovery is called. *)
Theorem discoverDevices_catches_permission_error
    (env : Env) (s : ScreenState) (e : JsError) :
  outcome (run (requestPermissions env) s) = Throw e ->
  let r := run (discoverDevices env) s in
  outcome r = Normal tt /\
  devices (after r) = [] /\
  isBtEnabled (after r) = isBtEnabled s /\
  alerts (logged r)
    = [AlertShown "Error" ("Failed to discover devices: " +:+ message e)] /\
  List.filter isNativeCall (logged r) = [].
Proof.
  intros Hthrow. cbv zeta.
  rewrite (discoverDevices_run env s). cbv zeta. rewrite Hthrow.
  destruct (requestPermissions_log_kinds env s) as [Hquiet Hnocall].
  unfold alerts, logged, after, outcome in *. cbn [fst snd screen trace] in *.
  rewrite !List.filter_app, Hquiet, Hnocall. repeat split.
Qed.

Lemma discoverDevices_catches_permission_error_witness :
  let r := run (discoverDevices failingPhone) foundB in
  outcome r = Normal tt /\
  devices (after r) = [] /\
  isBtEnabled (after r) = isBtEnabled foundB /\
  alerts (logged r)
    = [AlertShown "Error"
         ("Failed to discover devices: " +:+ message nativeFailure)] /\
  List.filter isNativeCall (logged r) = [].
Proof.
  apply (discoverDevices_catches_permission_error failingPhone foundB nativeFailure).
  vm_compute. reflexivity.
Defined.

(** ** discoverDevices, on every path *)

(** X14: [discoverDevices] never touches the recorded device or the
    loading flag, and the list it leaves is either empty or exactly what
    the discovery answered. *)
Theorem discoverDevices_frame (env : Env) (s : ScreenState) :
  let r := run (discoverDevices env) s in
  connectedDevice (after r) = connectedDevice s /\
  loading (after r) = loading s /\
  (devices (after r) = [] \/ startDiscovery env = Normal (devices (after r))).
Proof.
  cbv zeta. discover_paths env s; auto.
Qed.

(** X15: every call of [discoverDevices] ends in one of two ways: exactly
    one alert has been shown, or no alert has been shown and the list
    holds what the discovery answered. *)
Theorem discoverDevices_alert_or_list (env : Env) (s : ScreenState) :
  let r := run (discoverDevices env) s in
  (exists title text, alerts (logged r) = [AlertShown title text]) \/
  (alerts (logged r) = [] /\
   startDiscovery env = Normal (devices (after r)) /\
   isBtEnabled (after r) = true).
Proof.
  cbv zeta. discover_paths env s; eauto.
Qed.

(** X16: the guarded sequence of [discoverDevices]: the adapter is queried
    exactly when permissions were granted, the discovery is started
    exactly when the adapter then answered "enabled", each call is made
    once, in that order, and nothing is retried. *)
Theorem discoverDevices_call_sequence (env : Env) (s : ScreenState) :
  List.filter isNativeCall (logged (run (discoverDevices env) s)) =
    match outcome (run (requestPermissions env) s), isBluetoothEnabled env with
    | Normal true, Normal true => [IsBluetoothEnabledCall; StartDiscoveryCall]
    | Normal true, _ => [IsBluetoothEnabledCall]
    | _, _ => []
    end.
Proof.
  discover_paths env s; try reflexivity.
  all: destruct (isBluetoothEnabled env) as [[] | ?]; reflexivity.
Qed.

(** ** connectToDevice and disconnectDevice *)

(** X17: [connectToDevice] calls [connect()] on the device it is given,
    once, and makes no other call into the Bluetooth library; it never
    touches the device list, the scanning flag or the adapter flag. *)
Theorem connectToDevice_frame (env : Env) (device : BluetoothDevice) (s : ScreenState) :
  let r := run (connectToDevice env device) s in
  devices (after r) = devices s /\
  scanning (after r) = scanning s /\
  isBtEnabled (after r) = isBtEnabled s /\
  List.filter isNativeCall (logged r) = [ConnectCall device].
Proof.
  cbv zeta. rewrite connectToDevice_run. cbv zeta.
  destruct (connect env device) as [[] | e]; repeat split.
Qed.

(** X18: a connect that succeeds followed by a disconnect that resolves
    (to either boolean) brings a disconnected screen back to the state it
    started from, with the loading flag false. *)
Theorem connect_disconnect_round_trip
    (env : Env) (device : BluetoothDevice) (s : ScreenState) (b : bool) :
  connectedDevice s = None ->
  connect env device = Normal true ->
  disconnect env device = Normal b ->
  after (run (disconnectDevice env) (after (run (connectToDevice env device) s)))
    = {| devices := devices s; connectedDevice := None; loading := false;
         scanning := scanning s; isBtEnabled := isBtEnabled s |}.
Proof.
  intros Hs Hc Hd. rewrite connectToDevice_run. cbv zeta. rewrite Hc.
  unfold after at 2. cbn [snd screen].
  rewrite (disconnectDevice_run env device); [| reflexivity].
  cbv zeta. by rewrite Hd.
Qed.

Lemma connect_disconnect_round_trip_witness :
  after (run (disconnectDevice refusingDeviceOnExit)
           (after (run (connectToDevice refusingDeviceOnExit deviceB) foundB)))
    = foundB.
Proof.
  exact (connect_disconnect_round_trip refusingDeviceOnExit deviceB foundB false
           eq_refl eq_refl eq_refl).
Defined.

(** X19: once a disconnect has resolved, a second [disconnectDevice] does
    nothing: it changes no state cell and does not call the device
    again. *)
Theorem disconnectDevice_twice
    (env env' : Env) (device : BluetoothDevice) (s : ScreenState) (b : bool) :
  connectedDevice s = Some device ->
  disconnect env device = Normal b ->
  let s1 := after (run (disconnectDevice env) s) in
  run (disconnectDevice env') s1 = (Normal tt, {| screen := s1; trace := [] |}).
Proof.
  intros Hs Hd. cbv zeta.
  apply disconnectDevice_noop.
  rewrite (disconnectDevice_run env device s Hs). cbv zeta. by rewrite Hd.
Qed.

Lemma disconnectDevice_twice_witness :
  let s1 := after (run (disconnectDevice refusingDevice) connectedToA) in
  run (disconnectDevice failingPhone) s1
    = (Normal tt, {| screen := s1; trace := [] |}).
Proof.
  exact (disconnectDevice_twice refusingDevice failingPhone deviceA connectedToA
           false eq_refl eq_refl).
Defined.

(** X20: when [disconnect()] throws, the device stays recorded, the error
    is logged and shown in an alert that carries its message, the loading
    flag ends false, and a later [disconnectDevice] calls the device
    again. *)
Theorem disconnectDevice_throw_then_retry
    (env env' : Env) (device : BluetoothDevice) (s : ScreenState) (e : JsError) :
  connectedDevice s = Some device ->
  disconnect env device = Throw e ->
  let r := run (disconnectDevice env) s in
  outcome r = Normal tt /\
  connectedDevice (after r) = Some device /\
  loading (after r) = false /\
  alerts (logged r)
    = [AlertShown "Error" ("Disconnection failed: " +:+ message e)] /\
  List.filter isNativeCall (logged (run (disconnectDevice env') (after r)))
    = [DisconnectCall device].
Proof.
  intros Hs Hthrow. cbv zeta.
  rewrite (disconnectDevice_run env device s Hs). cbv zeta. rewrite Hthrow.
  repeat split.
  unfold after. cbn [snd screen].
  rewrite (disconnectDevice_run env' device); [| reflexivity].
  cbv zeta. by destruct (disconnect env' device).
Qed.

Lemma disconnectDevice_throw_then_retry_witness :
  let r := run (disconnectDevice failingPhone) connectedToA in
  outcome r = Normal tt /\
  connectedDevice (after r) = Some deviceA /\
  loading (after r) = false /\
  alerts (logged r)
    = [AlertShown "Error" ("Disconnection failed: " +:+ message nativeFailure)] /\
  List.filter isNativeCall (logged (run (disconnectDevice refusingDevice) (after r)))
    = [DisconnectCall deviceA].
Proof.
  exact (disconnectDevice_throw_then_retry failingPhone refusingDevice deviceA
           connectedToA nativeFailure eq_refl eq_refl).
Defined.

(** X21: with no device recorded, [disconnectDevice] leaves every state
    cell as it is, a loading flag that is set included, and logs
    nothing. *)
Theorem disconnectDevice_nothing_recorded (env : Env) (s : ScreenState) :
  connectedDevice s = None ->
  after (run (disconnectDevice env) s) = s /\
  logged (run (disconnectDevice env) s) = [].
Proof.
  intros Hs. by rewrite (disconnectDevice_noop env s Hs).
Qed.

Lemma disconnectDevice_nothing_recorded_witness :
  after (run (disconnectDevice failingPhone) foundB) = foundB /\
  logged (run (disconnectDevice failingPhone) foundB) = [].
Proof.
  exact (disconnectDevice_nothing_recorded failingPhone foundB eq_refl).
Defined.

(** * Further properties of the config plugin *)

(** X22: the plugin never removes a key: the keys of the patched manifest
    are the keys it had together with the three written ones. *)
Theorem withBluetoothClassic_keys (cfg : ModConfig) :
  dom (modResults (withBluetoothClassic cfg))
    = dom (modResults cfg) ∪ list_to_set writtenKeys.
Proof.
  apply set_eq. intros k.
  rewrite elem_of_union, !elem_of_dom, elem_of_list_to_set,
    withBluetoothClassic_lookup.
  unfold writtenKeys. rewrite !elem_of_cons, elem_of_nil.
  repeat case_decide; subst; split; intros Hx; eauto; try tauto.
  all: destruct Hx as [Hx | Hx]; [done | tauto].
Qed.

(** X23: what the three keys held before the patch has no effect on its
    result: two configurations that agree everywhere else are patched to
    the same configuration. *)
Theorem withBluetoothClassic_forgets (cfg cfg' : ModConfig) :
  untouchedPart (modResults cfg) = untouchedPart (modResults cfg') ->
  modRequest cfg = modRequest cfg' ->
  withBluetoothClassic cfg = withBluetoothClassic cfg'.
Proof.
  intros Hpart Hreq.
  assert (Hm : modResults (withBluetoothClassic cfg)
               = modResults (withBluetoothClassic cfg')).
  { apply map_eq. intros k. rewrite !withBluetoothClassic_lookup.
    repeat case_decide; try reflexivity.
    assert (Hk : untouchedPart (modResults cfg) !! k
                 = untouchedPart (modResults cfg') !! k) by by rewrite Hpart.
    unfold untouchedPart, writtenKeys, foldr in Hk.
    by rewrite !lookup_delete_ne in Hk by done. }
  destruct cfg as [m q], cfg' as [m' q'].
  unfold withBluetoothClassic, withInfoPlist, infoPlistAction in *.
  simpl in *. by rewrite Hm, Hreq.
Qed.

Lemma withBluetoothClassic_forgets_witness :
  withBluetoothClassic audioManifest = withBluetoothClassic emptyManifest.
Proof.
  apply (withBluetoothClassic_forgets audioManifest emptyManifest).
  - vm_compute. reflexivity.
  - reflexivity.
Defined.

(** X24: a write to any other key commutes with the patch: it can be made
    before or after with the same result. *)
Theorem withBluetoothClassic_commutes
    (m : gmap string PlistValue) (q : gmap string string)
    (k : string) (v : PlistValue) :
  k ∉ writtenKeys ->
  modResults (withBluetoothClassic {| modResults := <[k := v]> m; modRequest := q |})
    = <[k := v]>
        (modResults (withBluetoothClassic {| modResults := m; modRequest := q |})).
Proof.
  intros Hk. apply map_eq. intros j.
  rewrite lookup_insert, !withBluetoothClassic_lookup. simpl.
  rewrite lookup_insert.
  unfold writtenKeys in Hk. rewrite !elem_of_cons, elem_of_nil in Hk.
  repeat case_decide; subst; try reflexivity; tauto.
Qed.

Lemma withBluetoothClassic_commutes_witness :
  modResults (withBluetoothClassic
                {| modResults := <["CFBundleName" := PString "ECleaning"]> ∅;
                   modRequest := ∅ |})
    = <["CFBundleName" := PString "ECleaning"]>
        (modResults (withBluetoothClassic {| modResults := ∅; modRequest := ∅ |})).
Proof.
  apply (withBluetoothClassic_commutes ∅ ∅ "CFBundleName" (PString "ECleaning")).
  intros Hin.
  repeat (apply elem_of_cons in Hin as [Hin | Hin]; [discriminate Hin |]).
  by apply elem_of_nil in Hin.
Defined.

(** * The screen as the user drives it *)

(** ** Handlers only append to the log *)

Lemma appendsOnly_ret {A} (a : A) : appendsOnly (mret a : Proc A).
Proof. intros [s t]. unfold run, outcome, after, logged, mret, Proc_ret. simpl.
  by rewrite app_nil_r. Qed.

Lemma appendsOnly_throw {A} (e : JsError) : appendsOnly (throw e : Proc A).
Proof. intros [s t]. unfold run, outcome, after, logged, throw. simpl.
  by rewrite app_nil_r. Qed.

Lemma appendsOnly_emit (ev : Event) : appendsOnly (emit ev).
Proof. intros [s t]. reflexivity. Qed.

Lemma appendsOnly_modify (f : ScreenState -> ScreenState) : appendsOnly (modify f).
Proof. intros [s t]. unfold run, outcome, after, logged, modify. simpl.
  by rewrite app_nil_r. Qed.

Lemma appendsOnly_readState : appendsOnly readState.
Proof. intros [s t]. unfold run, outcome, after, logged, readState. simpl.
  by rewrite app_nil_r. Qed.

Lemma appendsOnly_bind {A B} (m : Proc A) (f : A -> Proc B) :
  appendsOnly m -> (forall a, appendsOnly (f a)) -> appendsOnly (m ≫= f).
Proof.
  intros Hm Hf w. unfold mbind, Proc_bind, run at 1 2 3.
  rewrite (Hm w), (Hm {| screen := screen w; trace := [] |}).
  cbn [screen trace app].
  destruct (outcome (run m (screen w))) as [a | e]; [| reflexivity].
  rewrite (Hf a {| screen := after (run m (screen w));
                   trace := trace w ++ logged (run m (screen w)) |}),
          (Hf a {| screen := after (run m (screen w));
                   trace := logged (run m (screen w)) |}).
  unfold outcome, after, logged. cbn [fst snd screen trace].
  by rewrite app_assoc.
Qed.

Lemma appendsOnly_native {A} (ev : Event) (answer : Completion A) :
  appendsOnly (native ev answer).
Proof. intros [s t]. unfold native, run, outcome, after, logged. proc_goal.
  reflexivity. Qed.

Lemma appendsOnly_tryCatchFinally {A} (body : Proc A) handler cleanup :
  appendsOnly body -> (forall e, appendsOnly (handler e)) -> appendsOnly cleanup ->
  appendsOnly (tryCatchFinally body handler cleanup).
Proof.
  intros Hb Hh Hc w. unfold tryCatchFinally, run at 1 2 3.
  rewrite (Hb w), (Hb {| screen := screen w; trace := [] |}).
  cbn [screen trace app].
  set (rb := run body (screen w)).
  assert (Hstep : forall (c : Completion A) s1 t1,
    (let '(c0, w1) := (c, {| screen := s1; trace := trace w ++ t1 |}) in
     match cleanup w1 with
     | (Normal _, w2) => (c0, w2)
     | (Throw e, w2) => (Throw e, w2)
     end)
    = (outcome (let '(c0, w1) := (c, {| screen := s1; trace := t1 |}) in
                match cleanup w1 with
                | (Normal _, w2) => (c0, w2)
                | (Throw e, w2) => (Throw e, w2)
                end),
       {| screen := after (let '(c0, w1) := (c, {| screen := s1; trace := t1 |}) in
                           match cleanup w1 with
                           | (Normal _, w2) => (c0, w2)
                           | (Throw e, w2) => (Throw e, w2)
                           end);
          trace := trace w ++
                   logged (let '(c0, w1) := (c, {| screen := s1; trace := t1 |}) in
                           match cleanup w1 with
                           | (Normal _, w2) => (c0, w2)
                           | (Throw e, w2) => (Throw e, w2)
                           end) |})).
  { intros c s1 t1. cbv beta iota zeta.
    rewrite (Hc {| screen := s1; trace := trace w ++ t1 |}),
            (Hc {| screen := s1; trace := t1 |}).
    cbn [screen trace].
    destruct (outcome (run cleanup s1)) as [[] | e];
      unfold outcome, after, logged; cbn [fst snd screen trace];
      by rewrite app_assoc. }
  destruct (outcome rb) as [a | e].
  - apply Hstep.
  - rewrite (Hh e {| screen := after rb; trace := trace w ++ logged rb |}),
            (Hh e {| screen := after rb; trace := logged rb |}).
    cbn [screen trace]. rewrite <- app_assoc. apply Hstep.
Qed.

Ltac append_only :=
  unfold tryCatch, console_error, Alert_alert, setDevices, setConnectedDevice,
    setLoading, setScanning, setIsBtEnabled;
  repeat (intros;
    first
      [ apply appendsOnly_ret | apply appendsOnly_throw | apply appendsOnly_emit
      | apply appendsOnly_modify | apply appendsOnly_readState
      | apply appendsOnly_native | apply appendsOnly_bind
      | apply appendsOnly_tryCatchFinally
      | match goal with
        | |- appendsOnly (if ?b then _ else _) => destruct b
        | |- appendsOnly (match ?x with _ => _ end) => destruct x
        end ]).

Lemma appendsOnly_checkBluetooth (env : Env) : appendsOnly (checkBluetooth env).
Proof. unfold checkBluetooth. append_only. Qed.

Lemma appendsOnly_requestPermissions (env : Env) : appendsOnly (requestPermissions env).
Proof. unfold requestPermissions. append_only. Qed.

Lemma appendsOnly_discoverDevices (env : Env) : appendsOnly (discoverDevices env).
Proof.
  unfold discoverDevices.
  apply appendsOnly_tryCatchFinally; [| append_only | append_only].
  apply appendsOnly_bind; [append_only |]. intros _.
  apply appendsOnly_bind; [append_only |]. intros _.
  apply appendsOnly_bind; [apply appendsOnly_requestPermissions |].
  intros hasPermissions. destruct (negb hasPermissions); [append_only |].
  apply appendsOnly_bind; [apply appendsOnly_checkBluetooth |].
  intros enabled. destruct (negb enabled); append_only.
Qed.

Lemma appendsOnly_connectToDevice (env : Env) (device : BluetoothDevice) :
  appendsOnly (connectToDevice env device).
Proof. unfold connectToDevice. append_only. Qed.

Lemma appendsOnly_disconnectDevice (env : Env) : appendsOnly (disconnectDevice env).
Proof. unfold disconnectDevice. append_only. Qed.

Lemma appendsOnly_tap (env : Env) (s : ScreenState) (t : Tap) :
  appendsOnly (tap (render env s) t).
Proof.
  unfold tap, press, render. cbn [refreshButton deviceSection statusBody].
  destruct t as [| index |].
  - cbn [disabled onPress]. destruct (scanning s);
      [apply appendsOnly_ret | apply appendsOnly_discoverDevices].
  - destruct (length (devices s) =? 0)%nat; [apply appendsOnly_ret |].
    rewrite list_lookup_fmap.
    destruct (devices s !! index) as [item |]; [| apply appendsOnly_ret].
    cbn [fmap option_fmap option_map renderItem rowButton disabled onPress].
    destruct (_ || _); [apply appendsOnly_ret | apply appendsOnly_connectToDevice].
  - destruct (connectedDevice s) as [d |]; [| apply appendsOnly_ret].
    cbn [disabled onPress]. destruct (loading s);
      [apply appendsOnly_ret | apply appendsOnly_disconnectDevice].
Qed.

Lemma appendsOnly_act (env : Env) (t : Tap) : appendsOnly (act env t).
Proof.
  intros w. unfold act at 1. rewrite (appendsOnly_tap env (screen w) t w).
  reflexivity.
Qed.

(** One tap, from a state at rest. *)
Lemma act_run (env : Env) (t : Tap) (s : ScreenState) :
  run (act env t) s = run (tap (render env s) t) s.
Proof. reflexivity. Qed.

(** ** What a tap starts *)

(** A tap at rest, control by control: a disabled or absent control does
    nothing, an enabled one runs its handler. *)
Lemma act_cases (env : Env) (t : Tap) (s : ScreenState) :
  run (act env t) s =
    let nothing := (Normal tt, {| screen := s; trace := [] |}) in
    match t with
    | TapRefresh =>
        if scanning s then nothing else run (discoverDevices env) s
    | TapDevice index =>
        match devices s !! index, connectedDevice s with
        | Some item, None =>
            if loading s then nothing else run (connectToDevice env item) s
        | _, _ => nothing
        end
    | TapDisconnect =>
        match connectedDevice s with
        | Some _ => if loading s then nothing else run (disconnectDevice env) s
        | None => nothing
        end
    end.
Proof.
  rewrite act_run. unfold tap, press, render, run.
  cbn [refreshButton deviceSection statusBody]. destruct t as [| index |].
  - cbn [disabled onPress]. by destruct (scanning s).
  - destruct (devices s) as [| d ds] eqn:Hds.
    + by destruct index.
    + cbn [length Nat.eqb]. rewrite list_lookup_fmap.
      destruct ((d :: ds) !! index) as [item |]; [| reflexivity].
      cbn [fmap option_fmap option_map renderItem rowButton disabled onPress].
      destruct (connectedDevice s) as [c |]; [reflexivity |].
      by destruct (loading s).
  - destruct (connectedDevice s) as [c |]; [| reflexivity].
    cbn [disabled onPress]. by destruct (loading s).
Qed.


(** X26: a tap on a disabled or absent control does nothing at all: the
    refresh button while scanning, a device row while a device is
    recorded or while loading, the disconnect button while nothing is
    recorded or while loading. *)
Theorem disabled_controls_swallow (env : Env) (s : ScreenState) (t : Tap) :
  match t with
  | TapRefresh => scanning s = true
  | TapDevice _ => is_Some (connectedDevice s) \/ loading s = true
  | TapDisconnect => connectedDevice s = None \/ loading s = true
  end ->
  run (act env t) s = (Normal tt, {| screen := s; trace := [] |}).
Proof.
  intros Hoff. rewrite act_cases. cbv zeta. destruct t as [| index |].
  - by rewrite Hoff.
  - destruct (devices s !! index) as [item |]; [| reflexivity].
    destruct Hoff as [[c Hc] | Hl]; [by rewrite Hc |].
    rewrite Hl. by destruct (connectedDevice s).
  - destruct Hoff as [Hc | Hl]; [by rewrite Hc |].
    rewrite Hl. by destruct (connectedDevice s).
Qed.

Lemma disabled_controls_swallow_witness :
  run (act failingPhone (TapDevice 0)) connectedToA
    = (Normal tt, {| screen := connectedToA; trace := [] |}) /\
  run (act failingPhone TapDisconnect) foundB
    = (Normal tt, {| screen := foundB; trace := [] |}).
Proof.
  split.
  - apply (disabled_controls_swallow failingPhone connectedToA (TapDevice 0)).
    left. exists deviceA. reflexivity.
  - apply (disabled_controls_swallow failingPhone foundB TapDisconnect).
    left. reflexivity.
Defined.

Lemma discoverDevices_no_device_call (env : Env) (s : ScreenState) (d : BluetoothDevice) :
  ConnectCall d ∉ logged (run (discoverDevices env) s).
Proof.
  intros Hin.
  assert (Hf : ConnectCall d ∈ List.filter isNativeCall
                                 (logged (run (discoverDevices env) s))).
  { apply list_elem_of_In, List.filter_In. split; [by apply list_elem_of_In | done]. }
  revert Hf. clear Hin.
  discover_paths env s; intros Hin;
    repeat (apply elem_of_cons in Hin as [Hin | Hin]; [discriminate Hin |]);
    by apply elem_of_nil in Hin.
Qed.

(** X27: through the screen, [connect()] is only ever called from a
    screen at rest with no device recorded, and only on the device of the
    row that was tapped. *)
Theorem connect_only_when_disconnected
    (env : Env) (s : ScreenState) (t : Tap) (d : BluetoothDevice) :
  ConnectCall d ∈ logged (run (act env t) s) ->
  connectedDevice s = None /\
  loading s = false /\
  exists index, t = TapDevice index /\ devices s !! index = Some d.
Proof.
  rewrite act_cases. cbv zeta. intros Hin.
  assert (Hnil : ConnectCall d ∈ logged (Normal tt, {| screen := s; trace := [] |})
                 -> False).
  { intros H. by apply elem_of_nil in H. }
  destruct t as [| index |].
  - destruct (scanning s); [done |].
    by apply discoverDevices_no_device_call in Hin.
  - destruct (devices s !! index) as [item |] eqn:Hitem; [| done].
    destruct (connectedDevice s) as [c |]; [done |].
    destruct (loading s); [done |].
    rewrite connectToDevice_run in Hin. cbv zeta in Hin.
    assert (Hd : d = item).
    { destruct (connect env item) as [[] | e]; unfold logged in Hin;
        cbn [snd trace] in Hin;
        apply elem_of_cons in Hin as [Hin | Hin]; try (by injection Hin);
        repeat (apply elem_of_cons in Hin as [Hin | Hin]; [discriminate Hin |]);
        by apply elem_of_nil in Hin. }
    subst d. repeat split. by exists index.
  - destruct (connectedDevice s) as [c |] eqn:Hc; [| done].
    destruct (loading s); [done |].
    rewrite (disconnectDevice_run env c s Hc) in Hin. cbv zeta in Hin.
    destruct (disconnect env c); unfold logged in Hin; cbn [snd trace] in Hin;
      repeat (apply elem_of_cons in Hin as [Hin | Hin]; [discriminate Hin |]);
      by apply elem_of_nil in Hin.
Qed.

Lemma connect_only_when_disconnected_witness :
  connectedDevice foundB = None /\
  loading foundB = false /\
  exists index, TapDevice 0 = TapDevice index /\ devices foundB !! index = Some deviceB.
Proof.
  apply (connect_only_when_disconnected
           (androidPhone "13" RESULTS_GRANTED) foundB (TapDevice 0) deviceB).
  apply list_elem_of_here.
Defined.

(** ** Sequences of taps *)

(** A property of worlds that every tap at rest keeps is kept by every
    sequence of taps, and no tap ends in a rejected promise. *)
Lemma session_invariant (Inv : World -> Prop) :
  (forall env t w, Inv w -> (act env t w).1 = Normal tt /\ Inv (act env t w).2) ->
  forall steps w, Inv w ->
    (session steps w).1 = Normal tt /\ Inv (session steps w).2.
Proof.
  intros Hact steps. induction steps as [| [env t] rest IH]; intros w Hw.
  - by split.
  - cbn [session]. unfold mbind, Proc_bind.
    destruct (Hact env t w Hw) as [Hc Hinv].
    destruct (act env t w) as [c w1]. cbn [fst snd] in *. subst c.
    by apply IH.
Qed.

(** No tap ends in a rejected promise. *)
Lemma act_rest_outcome (env : Env) (t : Tap) (s : ScreenState) :
  outcome (run (act env t) s) = Normal tt.
Proof.
  rewrite act_cases. cbv zeta. destruct t as [| index |].
  - destruct (scanning s); [done |]. discover_paths env s; auto.
  - destruct (devices s !! index) as [item |]; [| done].
    destruct (connectedDevice s) as [c |]; [done |].
    destruct (loading s); [done |].
    rewrite connectToDevice_run. cbv zeta.
    by destruct (connect env item) as [[] | e].
  - destruct (connectedDevice s) as [c |] eqn:Hc; [| done].
    destruct (loading s); [done |].
    rewrite (disconnectDevice_run env c s Hc). cbv zeta.
    by destruct (disconnect env c).
Qed.

(** One tap from a state at rest ends at rest. *)
Lemma act_rest (env : Env) (t : Tap) (s : ScreenState) :
  loading s = false -> scanning s = false ->
  outcome (run (act env t) s) = Normal tt /\
  loading (after (run (act env t) s)) = false /\
  scanning (after (run (act env t) s)) = false.
Proof.
  intros Hl Hs. rewrite act_cases. cbv zeta. destruct t as [| index |].
  - rewrite Hs. discover_paths env s; auto.
  - destruct (devices s !! index) as [item |]; [| done].
    destruct (connectedDevice s) as [c |]; [done |]. rewrite Hl.
    rewrite connectToDevice_run. cbv zeta.
    by destruct (connect env item) as [[] | e].
  - destruct (connectedDevice s) as [c |] eqn:Hc; [| done]. rewrite Hl.
    rewrite (disconnectDevice_run env c s Hc). cbv zeta.
    by destruct (disconnect env c).
Qed.

(** X28: from the mounted screen, after any sequence of taps that each
    arrive when no handler is in flight, whatever the collaborators answer
    at each tap, the screen is at rest again: neither loading nor
    scanning, and no handler has thrown. *)
Theorem session_ends_at_rest (env0 : Env) (steps : list (Env * Tap)) :
  let r := run (mount env0 ;; session steps) initialState in
  outcome r = Normal tt /\
  loading (after r) = false /\
  scanning (after r) = false.
Proof.
  cbv zeta. unfold run, outcome, after, mbind, Proc_bind.
  set (w0 := mount env0 {| screen := initialState; trace := [] |}).
  assert (H0 : w0.1 = Normal tt /\ loading (screen w0.2) = false
               /\ scanning (screen w0.2) = false).
  { unfold w0, mount, checkBluetooth. proc_goal.
    by destruct (isBluetoothEnabled env0). }
  destruct w0 as [c w1]. cbn [fst snd] in H0. destruct H0 as (-> & Hl & Hs).
  destruct (session_invariant
              (fun w => loading (screen w) = false /\ scanning (screen w) = false))
    with (steps := steps) (w := w1) as (Hc & Hl' & Hs'); [| done | done].
  intros env t w [Hwl Hws]. rewrite (appendsOnly_act env t w). cbn [fst snd screen].
  destruct (act_rest env t (screen w) Hwl Hws) as (? & ? & ?). done.
Qed.

(** One tap changes the recorded device only by recording the device it
    has just called [connect()] on, or by forgetting the recorded one. *)
Lemma act_recorded (env : Env) (t : Tap) (s : ScreenState) :
  let r := run (act env t) s in
  connectedDevice (after r) = connectedDevice s \/
  connectedDevice (after r) = None \/
  exists d, connectedDevice (after r) = Some d /\ ConnectCall d ∈ logged r.
Proof.
  cbv zeta. rewrite act_cases. cbv zeta. destruct t as [| index |].
  - destruct (scanning s); [by left |]. left. discover_paths env s; auto.
  - destruct (devices s !! index) as [item |]; [| by left].
    destruct (connectedDevice s) as [c |] eqn:Hc; [by left |].
    destruct (loading s); [by left |].
    rewrite connectToDevice_run. cbv zeta.
    destruct (connect env item) as [[] | e]; [| by right; left | by right; left].
    right. right. exists item. split; [reflexivity |]. apply list_elem_of_here.
  - destruct (connectedDevice s) as [c |] eqn:Hc; [| by left].
    destruct (loading s); [by left |].
    rewrite (disconnectDevice_run env c s Hc). cbv zeta.
    destruct (disconnect env c); [by right; left | by left].
Qed.

(** X29: from the mounted screen, after any sequence of taps at rest, a
    device is recorded as connected only if [connect()] has been called
    on that very device during the session. *)
Theorem session_recorded_was_connected
    (env0 : Env) (steps : list (Env * Tap)) (d : BluetoothDevice) :
  let r := run (mount env0 ;; session steps) initialState in
  connectedDevice (after r) = Some d ->
  ConnectCall d ∈ logged r.
Proof.
  cbv zeta. unfold run, outcome, after, logged, mbind, Proc_bind.
  set (w0 := mount env0 {| screen := initialState; trace := [] |}).
  assert (H0 : w0.1 = Normal tt /\ connectedDevice (screen w0.2) = None).
  { unfold w0, mount, checkBluetooth. proc_goal.
    by destruct (isBluetoothEnabled env0). }
  destruct w0 as [c w1]. cbn [fst snd] in H0. destruct H0 as (-> & Hnone).
  destruct (session_invariant
              (fun w => forall x, connectedDevice (screen w) = Some x ->
                                  ConnectCall x ∈ trace w))
    with (steps := steps) (w := w1) as (Hc & Hinv).
  - intros env t w Hw. rewrite (appendsOnly_act env t w). cbn [fst snd screen trace].
    split.
    + destruct (act_rest_outcome env t (screen w)). reflexivity.
    + intros x Hx. apply elem_of_app.
      destruct (act_recorded env t (screen w)) as [Hsame | [Hnil | (y & Hy & Hin)]].
      * left. apply Hw. by rewrite <- Hsame.
      * by rewrite Hnil in Hx.
      * right. rewrite Hy in Hx. by injection Hx as <-.
  - intros x Hx. by rewrite Hnone in Hx.
  - intros Hd. by apply Hinv.
Qed.

Lemma session_recorded_was_connected_witness :
  ConnectCall deviceA
    ∈ logged (run (mount (androidPhone "13" RESULTS_GRANTED) ;;
                   session [(androidPhone "13" RESULTS_GRANTED, TapRefresh);
                            (androidPhone "13" RESULTS_GRANTED, TapDevice 0)])
                  initialState).
Proof.
  apply (session_recorded_was_connected (androidPhone "13" RESULTS_GRANTED)
           [(androidPhone "13" RESULTS_GRANTED, TapRefresh);
            (androidPhone "13" RESULTS_GRANTED, TapDevice 0)] deviceA).
  vm_compute. reflexivity.
Defined.
